(** * Multi-tenant SaaS platform: tenant isolation, usage metering, billing
      and onboarding

    A shallow embedding of the Python services and Lambda handlers of the
    platform, one module for each class or handler file:

    - [utils/metrics.py]: [MetricsCollector];
    - [lambda/tenant_management/tenant_service.py] and [handler.py]:
      [TenantService], [TenantHandler];
    - [lambda/billing/billing_service.py] and [handler.py]:
      [BillingService], [BillingHandler];
    - [lambda/onboarding/onboarding_service.py] and [handler.py]:
      [OnboardingService], [OnboardingHandler].

    Python code runs in a state-and-exception monad over a [World] that holds
    the managed services the code talks to through boto3 (the two DynamoDB
    tables, the SQS queue, the Cognito user pool, the CloudWatch metrics) and
    a trace of the calls made to them.  What those services do on a call is
    not code of the repository; it is fixed by an [Env]: each service either
    works or raises a client error with a given text.

    Conventions of the embedding:
    - [try: ... except Exception as e: ...] is [try_except];
    - [d[k]] on a missing key raises [KeyError], [d.get(k, default)] does not;
    - a name a module uses without importing it raises [NameError] when the
      expression is evaluated ([resolve]);
    - logger calls have no effect on results and are left out;
    - a number attribute of a DynamoDB item ([{"N": ...}]) is an exact
      rational (the limits of DynamoDB on digits and magnitude are left out),
      a Python [int] is an integer and a Python [float] is an IEEE 754
      binary64 number ([spec_float] with 53 bits of precision);
    - a request body is the JSON object [json.loads] decodes, a response body
      the object [json.dumps] encodes. *)

From Stdlib Require Import ZArith QArith Qabs Ascii String DecimalString List Permutation Lia.
From Stdlib Require Import SpecFloat.
From stdpp Require Import base option gmap strings list fin_maps.

Local Open Scope string_scope.
Local Open Scope Z_scope.

(** ** Python values and exceptions *)

Inductive Exception :=
| ValueError (msg : string)
| KeyError (key : string)
| NameError (name : string)
| OverflowError (msg : string)
| ClientError (msg : string).

(** [str(e)] *)
Definition str (e : Exception) : string :=
  match e with
  | ValueError msg => msg
  | KeyError key => "'" ++ key ++ "'"
  | NameError name => "name '" ++ name ++ "' is not defined"
  | OverflowError msg => msg
  | ClientError msg => msg
  end.

Inductive Result (A : Type) :=
| Ok (a : A)
| Raise (e : Exception).
Arguments Ok {A} a.
Arguments Raise {A} e.

(** [needle in hay] on strings *)
Fixpoint contains (needle hay : string) : bool :=
  String.prefix needle hay ||
  match hay with
  | EmptyString => false
  | String _ rest => contains needle rest
  end.

(** Integer literals: an optional sign followed by at least one decimal
    digit.  [int] is [int(s)] of Python on the string of a number attribute
    (Python also accepts blanks around the literal and underscores between
    digits, which a number attribute cannot hold). *)
Definition digit (c : ascii) : option Z :=
  let n := Z.of_nat (nat_of_ascii c) in
  if (48 <=? n) && (n <=? 57) then Some (n - 48) else None.

Fixpoint digits (acc : Z) (s : string) : option Z :=
  match s with
  | EmptyString => Some acc
  | String c rest =>
      match digit c with
      | Some d => digits (10 * acc + d) rest
      | None => None
      end
  end.

Definition int (s : string) : option Z :=
  match s with
  | EmptyString => None
  | String "-" EmptyString => None
  | String "+" EmptyString => None
  | String "-" rest => Z.opp <$> digits 0 rest
  | String "+" rest => digits 0 rest
  | _ => digits 0 s
  end.

(** The numbers of DynamoDB: an optional sign, digits with an optional
    fraction, and an optional exponent.  [number] reads the string of a
    number attribute as the table does, [None] when it is no number. *)
Fixpoint split_at (p : ascii -> bool) (s : string) : string * option string :=
  match s with
  | EmptyString => (EmptyString, None)
  | String c rest =>
      if p c then (EmptyString, Some rest)
      else let (before, after) := split_at p rest in (String c before, after)
  end.

Definition is_dot (c : ascii) : bool := Ascii.eqb c ".".
Definition is_e (c : ascii) : bool := Ascii.eqb c "e" || Ascii.eqb c "E".

(** [m] times the power [e] of ten. *)
Definition scale (m e : Z) : Q :=
  match e with
  | Z0 => inject_Z m
  | Zpos _ => inject_Z (m * 10 ^ e)
  | Zneg p => (m # (10 ^ p)%positive)%Q
  end.

Definition unsigned_number (s : string) : option Q :=
  let (mantissa, exponent) := split_at is_e s in
  let (whole, fraction) := split_at is_dot mantissa in
  let fraction := default "" fraction in
  match whole ++ fraction with
  | EmptyString => None
  | String _ _ as ds =>
      match digits 0 ds, match exponent with None => Some 0 | Some x => int x end with
      | Some m, Some x => Some (scale m (x - Z.of_nat (String.length fraction)))
      | _, _ => None
      end
  end.

Definition number (s : string) : option Q :=
  match s with
  | String "-" rest => Qopp <$> unsigned_number rest
  | String "+" rest => unsigned_number rest
  | _ => unsigned_number s
  end.

(** The string the table answers for a number, and the integer it is, if
    it is one: the string is an integer literal exactly then. *)
Definition to_integer (q : Q) : option Z :=
  if Qnum q mod Zpos (Qden q) =? 0 then Some (Qnum q / Zpos (Qden q)) else None.

Fixpoint fraction_digits (fuel : nat) (r d : Z) : string :=
  match fuel with
  | O => ""
  | S fuel =>
      if r =? 0 then ""
      else NilZero.string_of_uint (N.to_uint (Z.to_N (10 * r / d)))
           ++ fraction_digits fuel (10 * r mod d) d
  end.

Definition number_string (q : Q) : string :=
  let n := Z.abs (Qnum q) in
  let d := Zpos (Qden q) in
  (if Qnum q <? 0 then "-" else "")
  ++ NilZero.string_of_uint (N.to_uint (Z.to_N (n / d)))
  ++ (if n mod d =? 0 then "" else "." ++ fraction_digits 400 (n mod d) d).

(** The nearest integer, ties to the even one. *)
Definition round_half_even (x : Q) : Z :=
  let n := Qnum x in
  let d := Zpos (Qden x) in
  let q := n / d in
  match 2 * (n mod d) ?= d with
  | Lt => q
  | Gt => q + 1
  | Eq => if Z.even q then q else q + 1
  end.

(** Python floats: binary64. *)
Definition prec : Z := 53.
Definition emax : Z := 1024.

(** The float nearest to [n / d] with the sign [sign], for [n] not negative:
    what the division of two floats computes, on integers of any size. *)
Definition round_to_double (sign : bool) (n : Z) (d : positive) : spec_float :=
  match n with
  | Zpos _ =>
      let '(m, e, l) := SFdiv_core_binary prec emax n 0 (Zpos d) 0 in
      binary_round_aux prec emax sign m e l
  | _ => S754_zero sign
  end.

(** [float(n)] for an [int]: the nearest float, infinite when [n] is too
    large. *)
Definition to_float (n : Z) : spec_float := binary_normalize prec emax n 0 false.

(** The absolute value of the finite float of mantissa [m] and exponent [e]. *)
Definition float_magnitude (m : positive) (e : Z) : Q :=
  match e with
  | Z0 => inject_Z (Zpos m)
  | Zpos _ => inject_Z (Zpos m * 2 ^ e)
  | Zneg p => (Zpos m # (2 ^ p)%positive)%Q
  end.

(** Neither infinite nor a NaN. *)
Definition finite (x : spec_float) : bool :=
  match x with
  | S754_zero _ | S754_finite _ _ _ => true
  | _ => false
  end.

(** [round(x, 2)]: the exact value of [x] is rounded to a whole number of
    hundredths, ties to the even one, and the result is the float nearest to
    that decimal; zeros, infinities and NaN are returned as they are. *)
Definition round2 (x : spec_float) : spec_float :=
  match x with
  | S754_finite sign m e =>
      round_to_double sign (round_half_even (float_magnitude m e * 100)) 100
  | _ => x
  end.

(** The float literal [0.01]. *)
Definition float_0_01 : spec_float := Eval vm_compute in round_to_double false 1 100.

(** ** The world: managed services behind boto3 *)

(** An item of the tenant data table. *)
Record Item := {
  item_tenant_id : string;
  item_item_id : string;
  item_data : string
}.

Record CognitoUser := {
  username : string;
  custom_tenant_id : string;
  confirmed : bool
}.

Inductive Call :=
| DynamoGetItem (table : string)
| DynamoPutItem (table : string)
| DynamoUpdateItem (table : string)
| SqsSendMessage
| CognitoSignUp
| CognitoAdminConfirmSignUp
| CloudWatchPutMetricData (metric_name : string).

(** How the services and the configuration behave during one run.  A fault
    [Some msg] makes every call to that service raise [ClientError msg]. *)
Record Env := {
  dynamodb_fault : option string;
  sqs_fault : option string;
  sign_up_fault : option string;
  confirm_fault : option string;
  cloudwatch_fault : option string;
  config_cost_per_unit : option spec_float;
  uuid4 : string;
  now : string
}.

Record World := {
  tenant_table : gmap (string * string) Item;
  billing_table : gmap string Q;
  queue : list (string * Z);
  user_pool : list CognitoUser;
  metrics : gmap string Z;
  calls : list Call
}.

Definition with_tenant_table (t : gmap (string * string) Item) (w : World) : World :=
  {| tenant_table := t; billing_table := billing_table w; queue := queue w;
     user_pool := user_pool w; metrics := metrics w; calls := calls w |}.

Definition with_billing_table (b : gmap string Q) (w : World) : World :=
  {| tenant_table := tenant_table w; billing_table := b; queue := queue w;
     user_pool := user_pool w; metrics := metrics w; calls := calls w |}.

Definition with_queue (q : list (string * Z)) (w : World) : World :=
  {| tenant_table := tenant_table w; billing_table := billing_table w; queue := q;
     user_pool := user_pool w; metrics := metrics w; calls := calls w |}.

Definition with_user_pool (u : list CognitoUser) (w : World) : World :=
  {| tenant_table := tenant_table w; billing_table := billing_table w; queue := queue w;
     user_pool := u; metrics := metrics w; calls := calls w |}.

Definition with_metrics (m : gmap string Z) (w : World) : World :=
  {| tenant_table := tenant_table w; billing_table := billing_table w; queue := queue w;
     user_pool := user_pool w; metrics := m; calls := calls w |}.

Definition with_calls (c : list Call) (w : World) : World :=
  {| tenant_table := tenant_table w; billing_table := billing_table w; queue := queue w;
     user_pool := user_pool w; metrics := metrics w; calls := c |}.

(** ** The monad of Python code: state, environment and exceptions *)

Definition M (A : Type) : Type := Env -> World -> Result A * World.

Definition ret {A} (a : A) : M A := fun _ w => (Ok a, w).

Definition raise {A} (e : Exception) : M A := fun _ w => (Raise e, w).

Definition bind {A B} (m : M A) (k : A -> M B) : M B :=
  fun env w =>
    match m env w with
    | (Ok a, w') => k a env w'
    | (Raise e, w') => (Raise e, w')
    end.

(** [try: body / except Exception as e: handler e] *)
Definition try_except {A} (body : M A) (handler : Exception -> M A) : M A :=
  fun env w =>
    match body env w with
    | (Ok a, w') => (Ok a, w')
    | (Raise e, w') => handler e env w'
    end.

Notation "x <- m ;; k" := (bind m (fun x => k))
  (at level 100, m at next level, right associativity).
Notation "m ;;; k" := (bind m (fun _ => k))
  (at level 100, right associativity).

(** [d[key]] *)
Definition getitem {A} (key : string) (field : option A) : M A :=
  match field with
  | Some a => ret a
  | None => raise (KeyError key)
  end.

(** Evaluation of a global name in a module that imports [globals]. *)
Definition resolve (globals : list string) (name : string) : M unit :=
  if bool_decide (name ∈ globals) then ret tt else raise (NameError name).

(** One call to a managed service: recorded in the trace, then either the
    fault of the service or its effect. *)
Definition service_call {A} (c : Call) (fault : Env -> option string)
    (effect : Env -> World -> Result A * World) : M A :=
  fun env w =>
    let w' := with_calls (c :: calls w) w in
    match fault env with
    | Some msg => (Raise (ClientError msg), w')
    | None => effect env w'
    end.

(** ** boto3 clients *)

(** DynamoDB.  [put_item] overwrites the item with the same key, [get_item]
    answers without ["Item"] when the key is absent.  The billing table keeps
    one number per tenant, the attribute [usage_count]; a value [{"N": s}]
    whose [s] is no number is refused. *)
Module DynamoDB.

Definition tenant_table_name : string := "saas-tenant-data".
Definition billing_table_name : string := "saas-billing".

Definition get_item (tenant_id item_id : string) : M (option Item) :=
  service_call (DynamoGetItem tenant_table_name) dynamodb_fault
    (fun _ w => (Ok (tenant_table w !! (tenant_id, item_id)), w)).

Definition put_item (item : Item) : M unit :=
  service_call (DynamoPutItem tenant_table_name) dynamodb_fault
    (fun _ w =>
       (Ok tt,
        with_tenant_table
          (<[(item_tenant_id item, item_item_id item) := item]> (tenant_table w)) w)).

Definition get_usage_count (tenant_id : string) : M (option Q) :=
  service_call (DynamoGetItem billing_table_name) dynamodb_fault
    (fun _ w => (Ok (billing_table w !! tenant_id), w)).

Definition invalid_number (val : string) : string :=
  "An error occurred (ValidationException) when calling the UpdateItem operation: The parameter cannot be converted to a numeric value: " ++ val.
Definition absent_attribute : string :=
  "An error occurred (ValidationException) when calling the UpdateItem operation: The provided expression refers to an attribute that does not exist in the item".

(** [update_item(Key={"tenant_id": ...},
      UpdateExpression="SET usage_count = usage_count + :val",
      ExpressionAttributeValues={":val": {"N": val}})]:
    one atomic step of the table.  The expression reads [usage_count]: it
    is refused when the tenant has no counter, and nothing is created. *)
Definition update_item (tenant_id : string) (val : string) : M unit :=
  service_call (DynamoUpdateItem billing_table_name) dynamodb_fault
    (fun env w =>
       match number val with
       | None => (Raise (ClientError (invalid_number val)), w)
       | Some d =>
           match billing_table w !! tenant_id with
           | Some c =>
               (Ok tt, with_billing_table (<[tenant_id := (c + d)%Q]> (billing_table w)) w)
           | None => (Raise (ClientError absent_attribute), w)
           end
       end).

End DynamoDB.

Module SQS.

(** [send_message(QueueUrl=..., MessageBody=json.dumps({"tenant_id": ..., "usage": ...}))] *)
Definition send_message (tenant_id : string) (usage : Z) : M unit :=
  service_call SqsSendMessage sqs_fault
    (fun _ w => (Ok tt, with_queue (queue w ++ [(tenant_id, usage)]) w)).

End SQS.

Module Cognito.

Definition username_exists : string :=
  "An error occurred (UsernameExistsException) when calling the SignUp operation: User already exists".
Definition user_not_found : string :=
  "An error occurred (UserNotFoundException) when calling the AdminConfirmSignUp operation: User does not exist.".

Definition has_user (email : string) (pool : list CognitoUser) : bool :=
  existsb (fun u => String.eqb (username u) email) pool.

Definition sign_up (email password tenant_id : string) : M unit :=
  service_call CognitoSignUp sign_up_fault
    (fun _ w =>
       if has_user email (user_pool w)
       then (Raise (ClientError username_exists), w)
       else (Ok tt,
             with_user_pool
               (user_pool w ++
                [{| username := email; custom_tenant_id := tenant_id; confirmed := false |}])
               w)).

Definition confirm (email : string) (u : CognitoUser) : CognitoUser :=
  if String.eqb (username u) email
  then {| username := username u; custom_tenant_id := custom_tenant_id u; confirmed := true |}
  else u.

Definition admin_confirm_sign_up (email : string) : M unit :=
  service_call CognitoAdminConfirmSignUp confirm_fault
    (fun _ w =>
       if has_user email (user_pool w)
       then (Ok tt, with_user_pool (map (confirm email) (user_pool w)) w)
       else (Raise (ClientError user_not_found), w)).

End Cognito.

Module CloudWatch.

Definition put_metric_data (metric_name : string) (value : Z) : M unit :=
  service_call (CloudWatchPutMetricData metric_name) cloudwatch_fault
    (fun _ w =>
       (Ok tt,
        with_metrics
          (<[metric_name := default 0 (metrics w !! metric_name) + value]> (metrics w)) w)).

End CloudWatch.

(** ** utils/metrics.py *)
Module MetricsCollector.

Definition _put_metric (metric_name : string) (value : Z) : M unit :=
  try_except
    (CloudWatch.put_metric_data metric_name value)
    (fun e => ret tt).

Definition record_data_access_success : M unit := _put_metric "DataAccessSuccess" 1.
Definition record_data_access_failure : M unit := _put_metric "DataAccessFailure" 1.
Definition record_billing_update : M unit := _put_metric "BillingUpdates" 1.
Definition record_onboarding_success : M unit := _put_metric "OnboardingSuccess" 1.
Definition record_error : M unit := _put_metric "Errors" 1.

End MetricsCollector.

(** ** Requests and responses *)

(** The claims of the caller, [event["requestContext"]["authorizer"]["claims"]];
    a key that is missing on the way gives the empty claims. *)
Record Claims := {
  claims_tenant_id : option string;
  claims_sub : option string
}.

Definition no_claims : Claims := {| claims_tenant_id := None; claims_sub := None |}.

(** The decoded JSON object of a request body. *)
Record RequestBody := {
  body_item_id : option string;
  body_data : option string;
  body_tenant_name : option string;
  body_email : option string;
  body_password : option string
}.

(** A record of a DynamoDB Streams batch: [record["eventName"]],
    [record["dynamodb"]] with its ["Keys"], where ["tenant_id"] is an
    attribute value [{"S": ...}], and
    [record["dynamodb"].get("NewImage", {}).get("usage", {}).get("N")]. *)
Record StringAttribute := {
  attribute_S : option string
}.

Record StreamKeys := {
  Keys_tenant_id : option StringAttribute
}.

Record StreamImage := {
  Keys : option StreamKeys;
  NewImage_usage_N : option string
}.

Record StreamRecord := {
  eventName : option string;
  dynamodb : option StreamImage
}.

Record Event := {
  Records : option (list StreamRecord);
  httpMethod : option string;
  path : option string;
  claims : Claims;
  pathParameters_tenant_id : option string;
  pathParameters_item_id : option string;
  body : option RequestBody
}.

Record BillingSummary := {
  summary_tenant_id : string;
  usage_count : Z;
  total_cost : spec_float
}.

(** The object a handler passes to [json.dumps] for the response body. *)
Inductive Body :=
| ErrorBody (error : string)
| MessageBody (message : string)
| ItemBody (item : Item)
| SummaryBody (summary : BillingSummary)
| TenantIdBody (tenant_id : string).

Record Response := {
  statusCode : Z;
  response_body : Body
}.

(** The strings of a response body, and whether one of them contains [text]. *)
Definition body_strings (b : Body) : list string :=
  match b with
  | ErrorBody error => [error]
  | MessageBody message => [message]
  | ItemBody item => [item_tenant_id item; item_item_id item; item_data item]
  | SummaryBody summary => [summary_tenant_id summary]
  | TenantIdBody tenant_id => [tenant_id]
  end.

Definition body_contains (text : string) (b : Body) : bool :=
  existsb (contains text) (body_strings b).

(** ** Helpers shared by the services *)

Definition asks {A} (f : Env -> A) : M A := fun env w => (Ok (f env), w).

(** [int(s)] as a Python expression. *)
Definition py_int (s : string) : M Z :=
  match int s with
  | Some n => ret n
  | None => raise (ValueError ("invalid literal for int() with base 10: '" ++ s ++ "'"))
  end.

(** [int(s)] where [s] is the string the table answers for the number [n]. *)
Definition py_int_of_number (n : Q) : M Z :=
  match to_integer n with
  | Some z => ret z
  | None =>
      raise (ValueError ("invalid literal for int() with base 10: '"
                         ++ number_string n ++ "'"))
  end.

(** [n * x] for an [int] and a [float]: [n] is converted to a float first. *)
Definition py_mul (n : Z) (x : spec_float) : M spec_float :=
  if finite (to_float n)
  then ret (SFmul prec emax (to_float n) x)
  else raise (OverflowError "int too large to convert to float").

(** [for x in l: body x] *)
Fixpoint for_each {A} (l : list A) (body : A -> M unit) : M unit :=
  match l with
  | [] => ret tt
  | x :: rest => body x ;;; for_each rest body
  end.

(** [user.get("tenant_id") != tenant_id] *)
Definition tenant_mismatch (user : Claims) (tenant_id : string) : bool :=
  negb (bool_decide (claims_tenant_id user = Some tenant_id)).

Definition dq : string := String (ascii_of_nat 34) EmptyString.

(** ** lambda/tenant_management/tenant_service.py *)
Module TenantService.

(** The names the module binds at top level: its imports and its class. *)
Definition globals : list string :=
  ["boto3"; "Dict"; "Optional"; "setup_logger"; "Config"; "MetricsCollector";
   "TenantService"].

Definition get_tenant_data (tenant_id item_id : string) (user : Claims)
    : M (option Item) :=
  try_except
    (if tenant_mismatch user tenant_id
     then raise (ValueError "Unauthorized tenant access")
     else
       item <- DynamoDB.get_item tenant_id item_id ;;
       match item with
       | None =>
           MetricsCollector.record_data_access_failure ;;;
           ret None
       | Some it =>
           MetricsCollector.record_data_access_success ;;;
           ret (Some it)
       end)
    (fun e => MetricsCollector.record_error ;;; raise e).

(** [data] is the JSON text of the payload; [json.dumps(data)] is evaluated,
    with the other arguments, before [put_item] is called. *)
Definition store_tenant_data (tenant_id item_id data : string) (user : Claims)
    : M unit :=
  try_except
    (if tenant_mismatch user tenant_id
     then raise (ValueError "Unauthorized tenant access")
     else
       resolve globals "json" ;;;
       DynamoDB.put_item
         {| item_tenant_id := tenant_id; item_item_id := item_id; item_data := data |} ;;;
       MetricsCollector.record_data_access_success)
    (fun e => MetricsCollector.record_error ;;; raise e).

End TenantService.

(** ** lambda/tenant_management/handler.py *)
Module TenantHandler.

Definition lambda_handler (event : Event) : M Response :=
  try_except
    (http_method <- getitem "httpMethod" (httpMethod event) ;;
     path <- getitem "path" (path event) ;;
     let user := claims event in
     if String.eqb http_method "GET"
        && contains "/tenants/{tenant_id}/data/{item_id}" path
     then
       tenant_id <- getitem "tenant_id" (pathParameters_tenant_id event) ;;
       item_id <- getitem "item_id" (pathParameters_item_id event) ;;
       result <- TenantService.get_tenant_data tenant_id item_id user ;;
       match result with
       | None => ret {| statusCode := 404; response_body := ErrorBody "Item not found" |}
       | Some item => ret {| statusCode := 200; response_body := ItemBody item |}
       end
     else if String.eqb http_method "POST"
             && contains "/tenants/{tenant_id}/data" path
     then
       tenant_id <- getitem "tenant_id" (pathParameters_tenant_id event) ;;
       body <- getitem "body" (body event) ;;
       item_id <- getitem "item_id" (body_item_id body) ;;
       data <- getitem "data" (body_data body) ;;
       TenantService.store_tenant_data tenant_id item_id data user ;;;
       MetricsCollector.record_data_access_success ;;;
       ret {| statusCode := 201; response_body := MessageBody "Data stored" |}
     else
       ret {| statusCode := 400; response_body := ErrorBody "Invalid request" |})
    (fun e =>
       MetricsCollector.record_error ;;;
       ret {| statusCode := 500; response_body := ErrorBody (str e) |}).

End TenantHandler.

(** ** lambda/billing/billing_service.py *)
Module BillingService.

Definition globals : list string :=
  ["boto3"; "json"; "Dict"; "setup_logger"; "Config"; "MetricsCollector";
   "BillingService"].

(** [self.config.get("billing.cost_per_unit", 0.01)] *)
Definition cost_per_unit : M spec_float :=
  asks (fun env => default float_0_01 (config_cost_per_unit env)).

Definition track_usage (tenant_id : string) (record : StreamImage) : M unit :=
  try_except
    (let usage := default "0" (NewImage_usage_N record) in
     DynamoDB.update_item tenant_id usage ;;;
     resolve globals "json" ;;;
     n <- py_int usage ;;
     SQS.send_message tenant_id n ;;;
     MetricsCollector.record_billing_update)
    (fun e => MetricsCollector.record_error ;;; raise e).

Definition get_billing_summary (tenant_id : string) : M BillingSummary :=
  try_except
    (item <- DynamoDB.get_usage_count tenant_id ;;
     usage_count <- match item with
                    | Some n => py_int_of_number n
                    | None => py_int "0"
                    end ;;
     cost_per_unit <- cost_per_unit ;;
     total_cost <- py_mul usage_count cost_per_unit ;;
     ret {| summary_tenant_id := tenant_id;
            usage_count := usage_count;
            total_cost := round2 total_cost |})
    (fun e => MetricsCollector.record_error ;;; raise e).

End BillingService.

(** ** lambda/billing/handler.py *)
Module BillingHandler.

(** The body of the loop over [event["Records"]]. *)
Definition process_record (record : StreamRecord) : M unit :=
  name <- getitem "eventName" (eventName record) ;;
  if bool_decide (name ∈ ["INSERT"; "MODIFY"])
  then
    image <- getitem "dynamodb" (dynamodb record) ;;
    keys <- getitem "Keys" (Keys image) ;;
    attribute <- getitem "tenant_id" (Keys_tenant_id keys) ;;
    tenant_id <- getitem "S" (attribute_S attribute) ;;
    BillingService.track_usage tenant_id image
  else ret tt.

Definition lambda_handler (event : Event) : M Response :=
  try_except
    (match Records event with
     | Some records =>
         for_each records process_record ;;;
         ret {| statusCode := 200; response_body := MessageBody "Usage processed" |}
     | None =>
         http_method <- getitem "httpMethod" (httpMethod event) ;;
         path <- getitem "path" (path event) ;;
         let user := claims event in
         if String.eqb http_method "GET" && contains "/billing/{tenant_id}" path
         then
           tenant_id <- getitem "tenant_id" (pathParameters_tenant_id event) ;;
           if tenant_mismatch user tenant_id
           then ret {| statusCode := 403; response_body := ErrorBody "Unauthorized" |}
           else
             billing_summary <- BillingService.get_billing_summary tenant_id ;;
             ret {| statusCode := 200; response_body := SummaryBody billing_summary |}
         else
           ret {| statusCode := 400; response_body := ErrorBody "Invalid request" |}
     end)
    (fun e =>
       MetricsCollector.record_error ;;;
       ret {| statusCode := 500; response_body := ErrorBody (str e) |}).

End BillingHandler.

(** ** lambda/onboarding/onboarding_service.py *)
Module OnboardingService.

Definition globals : list string :=
  ["boto3"; "uuid"; "Dict"; "setup_logger"; "Config"; "MetricsCollector";
   "OnboardingService"].

(** [json.dumps({"tenant_name": tenant_name, "created_at": created_at})] *)
Definition tenant_info (tenant_name created_at : string) : string :=
  "{" ++ dq ++ "tenant_name" ++ dq ++ ": " ++ dq ++ tenant_name ++ dq ++ ", "
      ++ dq ++ "created_at" ++ dq ++ ": " ++ dq ++ created_at ++ dq ++ "}".

Definition register_tenant (tenant_name email password : string) : M string :=
  try_except
    (resolve globals "uuid" ;;;
     tenant_id <- asks uuid4 ;;
     Cognito.sign_up email password tenant_id ;;;
     Cognito.admin_confirm_sign_up email ;;;
     resolve globals "json" ;;;
     resolve globals "datetime" ;;;
     created_at <- asks now ;;
     DynamoDB.put_item
       {| item_tenant_id := tenant_id;
          item_item_id := "tenant_info";
          item_data := tenant_info tenant_name created_at |} ;;;
     ret tenant_id)
    (fun e => MetricsCollector.record_error ;;; raise e).

End OnboardingService.

(** ** lambda/onboarding/handler.py *)
Module OnboardingHandler.

Definition lambda_handler (event : Event) : M Response :=
  try_except
    (http_method <- getitem "httpMethod" (httpMethod event) ;;
     is_onboarding <-
       (if String.eqb http_method "POST"
        then path <- getitem "path" (path event) ;; ret (String.eqb path "/onboarding")
        else ret false) ;;
     if (is_onboarding : bool)
     then
       body <- getitem "body" (body event) ;;
       tenant_name <- getitem "tenant_name" (body_tenant_name body) ;;
       email <- getitem "email" (body_email body) ;;
       password <- getitem "password" (body_password body) ;;
       tenant_id <- OnboardingService.register_tenant tenant_name email password ;;
       MetricsCollector.record_onboarding_success ;;;
       ret {| statusCode := 201; response_body := TenantIdBody tenant_id |}
     else
       ret {| statusCode := 400; response_body := ErrorBody "Invalid request" |})
    (fun e =>
       MetricsCollector.record_error ;;;
       ret {| statusCode := 500; response_body := ErrorBody (str e) |}).

End OnboardingHandler.

(** ** Observations on a world *)

(** The counter of a tenant as the billing summary reads it: 0 when the
    tenant has none. *)
Definition usage_of (w : World) (tenant_id : string) : Q :=
  default 0%Q (billing_table w !! tenant_id).

(** The value of the metric ["Errors"]. *)
Definition errors (w : World) : Z := default 0 (metrics w !! "Errors").

Definition is_store_call (c : Call) : bool :=
  match c with
  | DynamoGetItem _ | DynamoPutItem _ | DynamoUpdateItem _ => true
  | _ => false
  end.

(** The calls to DynamoDB made so far. *)
Definition store_calls (w : World) : list Call := List.filter is_store_call (calls w).

(** Everything but the metrics and the trace is the same in both worlds. *)
Definition same_data (w w' : World) : Prop :=
  tenant_table w' = tenant_table w /\ billing_table w' = billing_table w /\
  queue w' = queue w /\ user_pool w' = user_pool w.

(** The value an expression returned, if it returned. *)
Definition fst_ok {A} (out : Result A * World) : option A :=
  match fst out with
  | Ok a => Some a
  | Raise _ => None
  end.

(** The sum of a list of usage deltas. *)
Definition sum (ds : list Z) : Z := fold_right Z.add 0 ds.

(** [image["Keys"]["tenant_id"]["S"]], when the three keys are there. *)
Definition tenant_key (image : StreamImage) : option string :=
  match Keys image with
  | Some keys =>
      match Keys_tenant_id keys with
      | Some attribute => attribute_S attribute
      | None => None
      end
  | None => None
  end.

(** The record is an Insert or Modify event of tenant [T] whose usage
    attribute (["0"] when absent) reads as the integer [d]. *)
Definition carries (T : string) (record : StreamRecord) (d : Z) : Prop :=
  (eventName record = Some "INSERT" \/ eventName record = Some "MODIFY") /\
  exists image,
    dynamodb record = Some image /\ tenant_key image = Some T /\
    int (default "0" (NewImage_usage_N image)) = Some d.

(** The usage delta a record carries, when the table reads it as a number,
    and the records whose delta is not negative when they are counted. *)
Definition delta_of (record : StreamRecord) : option Q :=
  match dynamodb record with
  | Some image => number (default "0" (NewImage_usage_N image))
  | None => None
  end.

(** The records the billing handler passes to [track_usage]. *)
Definition counted (record : StreamRecord) : Prop :=
  eventName record = Some "INSERT" \/ eventName record = Some "MODIFY".

(** The key the handler looks up in a record and does not find. *)
Inductive lacks (record : StreamRecord) : string -> Prop :=
| lacks_eventName :
    eventName record = None -> lacks record "eventName"
| lacks_dynamodb :
    counted record -> dynamodb record = None -> lacks record "dynamodb"
| lacks_Keys image :
    counted record -> dynamodb record = Some image -> Keys image = None ->
    lacks record "Keys"
| lacks_tenant_id image keys :
    counted record -> dynamodb record = Some image -> Keys image = Some keys ->
    Keys_tenant_id keys = None -> lacks record "tenant_id"
| lacks_S image keys attribute :
    counted record -> dynamodb record = Some image -> Keys image = Some keys ->
    Keys_tenant_id keys = Some attribute -> attribute_S attribute = None ->
    lacks record "S".

Definition non_negative (record : StreamRecord) : Prop :=
  forall d, counted record -> delta_of record = Some d -> (0 <= d)%Q.

(** The world once a metric has been sent to CloudWatch, accepted or not. *)
Definition after_metric (metric_name : string) (value : Z) (env : Env) (w : World) : World :=
  snd (MetricsCollector._put_metric metric_name value env w).

Definition after_error (env : Env) (w : World) : World := after_metric "Errors" 1 env w.

(** A stream event and the API requests of the three handlers. *)
Definition stream_event (records : list StreamRecord) : Event :=
  {| Records := Some records; httpMethod := None; path := None; claims := no_claims;
     pathParameters_tenant_id := None; pathParameters_item_id := None; body := None |}.

Definition api_event (method route : string) (user : Claims)
    (tenant_id item_id : option string) (b : option RequestBody) : Event :=
  {| Records := None; httpMethod := Some method; path := Some route; claims := user;
     pathParameters_tenant_id := tenant_id; pathParameters_item_id := item_id;
     body := b |}.

Definition get_data_request (tenant_id item_id : string) (user : Claims) : Event :=
  api_event "GET" "/tenants/{tenant_id}/data/{item_id}" user
    (Some tenant_id) (Some item_id) None.

Definition post_data_request (tenant_id item_id data : string) (user : Claims) : Event :=
  api_event "POST" "/tenants/{tenant_id}/data" user (Some tenant_id) None
    (Some {| body_item_id := Some item_id; body_data := Some data;
             body_tenant_name := None; body_email := None; body_password := None |}).

Definition get_billing_request (tenant_id : string) (user : Claims) : Event :=
  api_event "GET" "/billing/{tenant_id}" user (Some tenant_id) None None.

Definition onboarding_request (tenant_name email password : string) : Event :=
  api_event "POST" "/onboarding" no_claims None None
    (Some {| body_item_id := None; body_data := None;
             body_tenant_name := Some tenant_name; body_email := Some email;
             body_password := Some password |}).

(** The image of a change of [tenant_id] with the usage attribute [usage],
    and a change record of kind [name] with that image. *)
Definition stream_image (tenant_id : string) (usage : option string) : StreamImage :=
  {| Keys := Some {| Keys_tenant_id := Some {| attribute_S := Some tenant_id |} |};
     NewImage_usage_N := usage |}.

Definition change_record (name tenant_id : string) (usage : option string) : StreamRecord :=
  {| eventName := Some name; dynamodb := Some (stream_image tenant_id usage) |}.

(** A world with nothing in it, and an environment where every service
    works. *)
Definition empty_world : World :=
  {| tenant_table := ∅; billing_table := ∅; queue := []; user_pool := [];
     metrics := ∅; calls := [] |}.

(** A world with data and usage of two tenants. *)
Definition sample_world : World :=
  {| tenant_table :=
       {[ ("tenant-b", "item1") :=
            {| item_tenant_id := "tenant-b"; item_item_id := "item1";
               item_data := "{}" |} ]};
     billing_table := {[ "t1" := 50%Q; "tenant-b" := 10%Q ]};
     queue := []; user_pool := []; metrics := ∅; calls := [] |}.

(** The text of a DynamoDB client error that names a table. *)
Definition table_not_found : string :=
  "An error occurred (ResourceNotFoundException) when calling the GetItem operation: Requested resource not found: Table: saas-billing not found".

Definition healthy : Env :=
  {| dynamodb_fault := None; sqs_fault := None; sign_up_fault := None;
     confirm_fault := None; cloudwatch_fault := None;
     config_cost_per_unit := None;
     uuid4 := "0b0f3c1e-7a55-4c43-9d2e-3f6a1c0d9b11"; now := "2024-01-01 00:00:00" |}.

Definition with_dynamodb_fault (fault : option string) (env : Env) : Env :=
  {| dynamodb_fault := fault; sqs_fault := sqs_fault env;
     sign_up_fault := sign_up_fault env; confirm_fault := confirm_fault env;
     cloudwatch_fault := cloudwatch_fault env;
     config_cost_per_unit := config_cost_per_unit env;
     uuid4 := uuid4 env; now := now env |}.

Definition with_cloudwatch_fault (fault : option string) (env : Env) : Env :=
  {| dynamodb_fault := dynamodb_fault env; sqs_fault := sqs_fault env;
     sign_up_fault := sign_up_fault env; confirm_fault := confirm_fault env;
     cloudwatch_fault := fault;
     config_cost_per_unit := config_cost_per_unit env;
     uuid4 := uuid4 env; now := now env |}.

(** Two environments that differ at most in what CloudWatch does. *)
Definition same_services (e1 e2 : Env) : Prop :=
  dynamodb_fault e1 = dynamodb_fault e2 /\ sqs_fault e1 = sqs_fault e2 /\
  sign_up_fault e1 = sign_up_fault e2 /\ confirm_fault e1 = confirm_fault e2 /\
  config_cost_per_unit e1 = config_cost_per_unit e2 /\
  uuid4 e1 = uuid4 e2 /\ now e1 = now e2.

(** The expression returns or raises the same, and leaves the same data,
    whatever CloudWatch does and whatever the metrics were. *)
Definition metrics_blind {A} (m : M A) : Prop :=
  forall e1 e2 w1 w2,
    same_services e1 e2 -> same_data w1 w2 ->
    fst (m e1 w1) = fst (m e2 w2) /\ same_data (snd (m e1 w1)) (snd (m e2 w2)).

(** The same, for one world and a fault of CloudWatch put in or taken out. *)
Definition unaffected_by_cloudwatch {A} (m : M A) : Prop :=
  forall fault env w,
    fst (m (with_cloudwatch_fault fault env) w) = fst (m env w) /\
    same_data (snd (m env w)) (snd (m (with_cloudwatch_fault fault env) w)).

(** The value of a metric: what CloudWatch has accepted so far. *)
Definition metric (metric_name : string) (w : World) : Z :=
  default 0 (metrics w !! metric_name).

(** The record names tenant [T] in its keys. *)
Definition keyed_to (T : string) (record : StreamRecord) : Prop :=
  exists image, dynamodb record = Some image /\ tenant_key image = Some T.

(** The statuses a handler answers with. *)
Definition status_in (statuses : list Z) (r : Response) : Prop :=
  In (statusCode r) statuses.

(** * Properties *)

(** ** Metrics *)

Lemma put_metric_run (metric_name : string) (value : Z) (env : Env) (w : World) :
  MetricsCollector._put_metric metric_name value env w
  = (Ok tt, after_metric metric_name value env w).
Proof.
  unfold after_metric, MetricsCollector._put_metric, try_except,
    CloudWatch.put_metric_data, service_call, ret.
  destruct (cloudwatch_fault env); reflexivity.
Qed.

Lemma after_metric_same_data (metric_name : string) (value : Z) env w :
  same_data w (after_metric metric_name value env w).
Proof.
  unfold after_metric, MetricsCollector._put_metric, try_except,
    CloudWatch.put_metric_data, service_call, ret, same_data.
  destruct (cloudwatch_fault env); simpl; auto.
Qed.

Lemma after_metric_calls (metric_name : string) (value : Z) env w :
  calls (after_metric metric_name value env w)
  = CloudWatchPutMetricData metric_name :: calls w.
Proof.
  unfold after_metric, MetricsCollector._put_metric, try_except,
    CloudWatch.put_metric_data, service_call, ret.
  destruct (cloudwatch_fault env); reflexivity.
Qed.

Lemma after_metric_metrics (metric_name : string) (value : Z) env w :
  metrics (after_metric metric_name value env w)
  = match cloudwatch_fault env with
    | Some _ => metrics w
    | None => <[metric_name := default 0 (metrics w !! metric_name) + value]> (metrics w)
    end.
Proof.
  unfold after_metric, MetricsCollector._put_metric, try_except,
    CloudWatch.put_metric_data, service_call, ret.
  destruct (cloudwatch_fault env); reflexivity.
Qed.

Lemma after_metric_billing_table (metric_name : string) (value : Z) env w :
  billing_table (after_metric metric_name value env w) = billing_table w.
Proof. apply after_metric_same_data. Qed.

Lemma after_metric_tenant_table (metric_name : string) (value : Z) env w :
  tenant_table (after_metric metric_name value env w) = tenant_table w.
Proof. apply after_metric_same_data. Qed.

Lemma after_metric_queue (metric_name : string) (value : Z) env w :
  queue (after_metric metric_name value env w) = queue w.
Proof. apply after_metric_same_data. Qed.

Lemma after_metric_user_pool (metric_name : string) (value : Z) env w :
  user_pool (after_metric metric_name value env w) = user_pool w.
Proof. apply after_metric_same_data. Qed.

Lemma after_metric_store_calls (metric_name : string) (value : Z) env w :
  store_calls (after_metric metric_name value env w) = store_calls w.
Proof. unfold store_calls. now rewrite after_metric_calls. Qed.

Lemma after_error_errors env w :
  cloudwatch_fault env = None -> errors (after_error env w) = errors w + 1.
Proof.
  intros H. unfold errors, after_error.
  rewrite after_metric_metrics, H. now rewrite lookup_insert_eq.
Qed.

Lemma same_data_refl (w : World) : same_data w w.
Proof. unfold same_data. auto. Qed.

Lemma same_data_trans (w1 w2 w3 : World) :
  same_data w1 w2 -> same_data w2 w3 -> same_data w1 w3.
Proof. unfold same_data. intuition congruence. Qed.

Create Rewrite HintDb world.
#[local] Hint Rewrite after_metric_billing_table after_metric_tenant_table
  after_metric_queue after_metric_user_pool after_metric_calls : world.

Create HintDb world.
#[local] Hint Resolve same_data_refl after_metric_same_data after_metric_store_calls : world.

(** Running Python code symbolically: unfold the monad, and step over each
    metric with [put_metric_run]. *)
Ltac exec :=
  unfold bind, try_except, getitem, ret, raise, asks,
    MetricsCollector.record_error, MetricsCollector.record_data_access_success,
    MetricsCollector.record_data_access_failure, MetricsCollector.record_billing_update,
    MetricsCollector.record_onboarding_success;
  repeat (rewrite ?put_metric_run;
          cbn [Records httpMethod path claims pathParameters_tenant_id
               pathParameters_item_id body body_item_id body_data body_tenant_name
               body_email body_password eventName dynamodb Keys Keys_tenant_id attribute_S
               NewImage_usage_N];
          cbv beta iota).

Lemma tenant_mismatch_ne (user : Claims) (A B : string) :
  claims_tenant_id user = Some A -> A <> B -> tenant_mismatch user B = true.
Proof.
  intros HA Hne. unfold tenant_mismatch. rewrite HA.
  rewrite bool_decide_eq_false_2; [reflexivity | congruence].
Qed.

Lemma tenant_mismatch_eq (user : Claims) (A : string) :
  claims_tenant_id user = Some A -> tenant_mismatch user A = false.
Proof.
  intros HA. unfold tenant_mismatch. rewrite HA.
  now rewrite bool_decide_eq_true_2.
Qed.

(** ** Tenant isolation *)

Lemma get_tenant_data_mismatch (B item_id : string) (user : Claims) env w :
  tenant_mismatch user B = true ->
  TenantService.get_tenant_data B item_id user env w
  = (Raise (ValueError "Unauthorized tenant access"), after_error env w).
Proof.
  intros H. unfold TenantService.get_tenant_data. exec. rewrite H. now exec.
Qed.

Lemma store_tenant_data_mismatch (B item_id data : string) (user : Claims) env w :
  tenant_mismatch user B = true ->
  TenantService.store_tenant_data B item_id data user env w
  = (Raise (ValueError "Unauthorized tenant access"), after_error env w).
Proof.
  intros H. unfold TenantService.store_tenant_data. exec. rewrite H. now exec.
Qed.

Lemma same_data_after_metric (metric_name : string) (value : Z) env w w' :
  same_data w w' -> same_data w (after_metric metric_name value env w').
Proof. intros H. eapply same_data_trans; eauto with world. Qed.

#[local] Hint Resolve same_data_after_metric : world.

(** The metrics change neither the data nor the trace of store calls. *)
Ltac quiet :=
  unfold after_error;
  eexists _, _; split; [reflexivity|]; cbn [statusCode response_body];
  rewrite ?after_metric_store_calls; eauto 10 with world.

(** Once the caller is of another tenant, the tenant handler answers 400 or
    500 with an error body and never reaches the store. *)
Lemma tenant_handler_mismatch (B : string) (event : Event) env w :
  tenant_mismatch (claims event) B = true ->
  pathParameters_tenant_id event = Some B ->
  exists r w',
    TenantHandler.lambda_handler event env w = (Ok r, w') /\
    (statusCode r = 400 \/ statusCode r = 500) /\
    (exists msg, response_body r = ErrorBody msg) /\
    same_data w w' /\ store_calls w' = store_calls w.
Proof.
  intros Hmis HB.
  unfold TenantHandler.lambda_handler. rewrite HB. exec.
  destruct (httpMethod event) as [m|]; exec; [|quiet].
  destruct (path event) as [p|]; exec; [|quiet].
  destruct (String.eqb m "GET" && contains "/tenants/{tenant_id}/data/{item_id}" p).
  - destruct (pathParameters_item_id event) as [i|]; exec; [|quiet].
    rewrite get_tenant_data_mismatch by assumption. exec. quiet.
  - destruct (String.eqb m "POST" && contains "/tenants/{tenant_id}/data" p); exec;
      [|quiet].
    destruct (body event) as [b|]; exec; [|quiet].
    destruct (body_item_id b) as [i|]; exec; [|quiet].
    destruct (body_data b) as [d|]; exec; [|quiet].
    rewrite store_tenant_data_mismatch by assumption. exec. quiet.
Qed.

(** The billing handler, on an API request of a caller of another tenant,
    answers 400, 403 or 500 with an error body and never reaches the store. *)
Lemma billing_handler_mismatch (B : string) (event : Event) env w :
  Records event = None ->
  tenant_mismatch (claims event) B = true ->
  pathParameters_tenant_id event = Some B ->
  exists r w',
    BillingHandler.lambda_handler event env w = (Ok r, w') /\
    (statusCode r = 400 \/ statusCode r = 403 \/ statusCode r = 500) /\
    (exists msg, response_body r = ErrorBody msg) /\
    same_data w w' /\ store_calls w' = store_calls w.
Proof.
  intros HR Hmis HB.
  unfold BillingHandler.lambda_handler. rewrite HR, HB. exec.
  destruct (httpMethod event) as [m|]; exec; [|quiet].
  destruct (path event) as [p|]; exec; [|quiet].
  destruct (String.eqb m "GET" && contains "/billing/{tenant_id}" p); [|quiet].
  rewrite Hmis. quiet.
Qed.

(** C1. Tenant isolation.  A caller whose claims name tenant [A] asks for a
    resource of another tenant [B]: [get_tenant_data] and [store_tenant_data]
    raise [ValueError "Unauthorized tenant access"] and, apart from the error
    metric, leave the world as it was (no call to DynamoDB); the billing
    handler answers a GET for [B]'s summary with 403 without any call at all;
    and whatever else the request holds, the tenant handler answers 400 or
    500 and the billing handler 400, 403 or 500, always with an error body
    and never after a call to the store. *)
Theorem tenant_isolation (A B : string) (user : Claims) :
  claims_tenant_id user = Some A -> A <> B ->
  forall env w,
    (forall item_id,
        TenantService.get_tenant_data B item_id user env w
        = (Raise (ValueError "Unauthorized tenant access"), after_error env w)) /\
    (forall item_id data,
        TenantService.store_tenant_data B item_id data user env w
        = (Raise (ValueError "Unauthorized tenant access"), after_error env w)) /\
    same_data w (after_error env w) /\
    calls (after_error env w) = CloudWatchPutMetricData "Errors" :: calls w /\
    BillingHandler.lambda_handler (get_billing_request B user) env w
    = (Ok {| statusCode := 403; response_body := ErrorBody "Unauthorized" |}, w) /\
    (forall event,
        claims event = user -> pathParameters_tenant_id event = Some B ->
        exists r w',
          TenantHandler.lambda_handler event env w = (Ok r, w') /\
          (statusCode r = 400 \/ statusCode r = 500) /\
          (exists msg, response_body r = ErrorBody msg) /\
          same_data w w' /\ store_calls w' = store_calls w) /\
    (forall event,
        Records event = None ->
        claims event = user -> pathParameters_tenant_id event = Some B ->
        exists r w',
          BillingHandler.lambda_handler event env w = (Ok r, w') /\
          (statusCode r = 400 \/ statusCode r = 403 \/ statusCode r = 500) /\
          (exists msg, response_body r = ErrorBody msg) /\
          same_data w w' /\ store_calls w' = store_calls w).
Proof.
  intros HA Hne env w.
  pose proof (tenant_mismatch_ne user A B HA Hne) as Hmis.
  repeat split.
  - intros. now apply get_tenant_data_mismatch.
  - intros. now apply store_tenant_data_mismatch.
  - apply after_metric_same_data.
  - apply after_metric_same_data.
  - apply after_metric_same_data.
  - apply after_metric_same_data.
  - apply after_metric_calls.
  - unfold BillingHandler.lambda_handler, get_billing_request, api_event.
    cbn [Records httpMethod path claims pathParameters_tenant_id]. exec.
    cbn. rewrite Hmis. reflexivity.
  - intros event Hc HB. apply tenant_handler_mismatch with (B := B); congruence.
  - intros event HR Hc HB. apply billing_handler_mismatch with (B := B); congruence.
Qed.

(** ** Numbers *)

Lemma digit_is_no_mark (c : ascii) (d : Z) :
  digit c = Some d -> is_dot c = false /\ is_e c = false.
Proof.
  destruct c as [[] [] [] [] [] [] [] []]; vm_compute; intros H;
    first [discriminate H | split; reflexivity].
Qed.

Lemma split_at_digits (p : ascii -> bool) (s : string) :
  (forall c d, digit c = Some d -> p c = false) ->
  forall acc m, digits acc s = Some m -> split_at p s = (s, None).
Proof.
  intros Hp. induction s as [|c rest IH]; intros acc m H; [reflexivity|].
  cbn [digits] in H. destruct (digit c) as [d|] eqn:Hc; [|discriminate].
  cbn [split_at]. rewrite (Hp c d Hc), (IH _ _ H). reflexivity.
Qed.

Lemma append_empty (s : string) : (s ++ "")%string = s.
Proof.
  induction s as [|c rest IH]; [reflexivity|].
  change (String c (rest ++ "")%string = String c rest). now rewrite IH.
Qed.

Lemma unsigned_number_digits (c : ascii) (rest : string) (m : Z) :
  digits 0 (String c rest) = Some m ->
  unsigned_number (String c rest) = Some (inject_Z m).
Proof.
  intros H. unfold unsigned_number.
  rewrite (split_at_digits is_e _ (fun c d Hd => proj2 (digit_is_no_mark c d Hd)) _ _ H).
  rewrite (split_at_digits is_dot _ (fun c d Hd => proj1 (digit_is_no_mark c d Hd)) _ _ H).
  cbn [default]. rewrite append_empty, H. reflexivity.
Qed.

(** An integer literal is a number of the table, with the value [int]
    gives it. *)
Lemma number_int (s : string) (d : Z) :
  int s = Some d -> number s = Some (inject_Z d).
Proof.
  destruct s as [|c rest]; [discriminate|].
  destruct (Ascii.eqb_spec c "-") as [->|Hminus].
  - destruct rest as [|c' rest]; [discriminate|].
    cbn [int number]. intros H.
    destruct (digits 0 (String c' rest)) as [m|] eqn:Hm; [|discriminate].
    rewrite (unsigned_number_digits _ _ _ Hm). cbn in H. injection H as <-. reflexivity.
  - destruct (Ascii.eqb_spec c "+") as [->|Hplus].
    + destruct rest as [|c' rest]; [discriminate|].
      cbn [int number]. apply unsigned_number_digits.
    + assert (Hint : int (String c rest) = digits 0 (String c rest)).
      { destruct c as [[] [] [] [] [] [] [] []]; try reflexivity; congruence. }
      assert (Hnum : number (String c rest) = unsigned_number (String c rest)).
      { destruct c as [[] [] [] [] [] [] [] []]; try reflexivity; congruence. }
      rewrite Hint, Hnum. apply unsigned_number_digits.
Qed.

(** ** Usage accumulation *)

Lemma update_item_run (T usage : string) (d : Z) env w :
  dynamodb_fault env = None ->
  int usage = Some d ->
  is_Some (billing_table w !! T) ->
  DynamoDB.update_item T usage env w
  = (Ok tt,
     with_billing_table (<[T := (usage_of w T + inject_Z d)%Q]> (billing_table w))
       (with_calls (DynamoUpdateItem DynamoDB.billing_table_name :: calls w) w)).
Proof.
  intros Hf Hd [c Hc]. unfold DynamoDB.update_item, service_call, usage_of.
  rewrite Hf, (number_int _ _ Hd). cbn [billing_table with_calls].
  rewrite Hc. reflexivity.
Qed.

(** The table refuses [usage_count + :val] for a tenant without a counter:
    the update raises, whatever the delta, and the table stays as it was. *)
Lemma update_item_absent (T usage : string) (d : Q) env w :
  dynamodb_fault env = None ->
  number usage = Some d ->
  billing_table w !! T = None ->
  DynamoDB.update_item T usage env w
  = (Raise (ClientError DynamoDB.absent_attribute),
     with_calls (DynamoUpdateItem DynamoDB.billing_table_name :: calls w) w).
Proof.
  intros Hf Hd Hc. unfold DynamoDB.update_item, service_call.
  rewrite Hf, Hd. cbn [billing_table with_calls]. rewrite Hc. reflexivity.
Qed.

Lemma resolve_json_billing env w :
  resolve BillingService.globals "json" env w = (Ok tt, w).
Proof. reflexivity. Qed.

Lemma track_usage_run (T : string) (image : StreamImage) (d : Z) env w :
  dynamodb_fault env = None -> sqs_fault env = None ->
  int (default "0" (NewImage_usage_N image)) = Some d ->
  is_Some (billing_table w !! T) ->
  exists w',
    BillingService.track_usage T image env w = (Ok tt, w') /\
    billing_table w' = <[T := (usage_of w T + inject_Z d)%Q]> (billing_table w) /\
    tenant_table w' = tenant_table w /\
    queue w' = (queue w ++ [(T, d)])%list.
Proof.
  intros Hf Hs Hd Hc. unfold BillingService.track_usage. exec.
  rewrite (update_item_run T _ d) by assumption.
  rewrite resolve_json_billing.
  unfold py_int. rewrite Hd. exec.
  unfold SQS.send_message, service_call. rewrite Hs. exec.
  eexists. split; [reflexivity|].
  autorewrite with world. cbn. auto.
Qed.

(** The first usage event of a tenant: the update is refused, [track_usage]
    counts the error and raises again, and neither a counter nor a message
    is created. *)
Lemma track_usage_absent (T : string) (image : StreamImage) (d : Q) env w :
  dynamodb_fault env = None ->
  number (default "0" (NewImage_usage_N image)) = Some d ->
  billing_table w !! T = None ->
  BillingService.track_usage T image env w
  = (Raise (ClientError DynamoDB.absent_attribute),
     after_error env
       (with_calls (DynamoUpdateItem DynamoDB.billing_table_name :: calls w) w)).
Proof.
  intros Hf Hd Hc. unfold BillingService.track_usage. exec.
  rewrite (update_item_absent T _ d) by assumption. now exec.
Qed.

Lemma insert_kind : bool_decide ("INSERT" ∈ ["INSERT"; "MODIFY"]) = true.
Proof. reflexivity. Qed.

Lemma modify_kind : bool_decide ("MODIFY" ∈ ["INSERT"; "MODIFY"]) = true.
Proof. reflexivity. Qed.

Lemma sum_cons (d : Z) (ds : list Z) : sum (d :: ds) = d + sum ds.
Proof. reflexivity. Qed.

(** The handler finds the tenant of a record under its three keys. *)
Lemma process_record_keyed (T : string) (record : StreamRecord) (image : StreamImage) env w :
  counted record ->
  dynamodb record = Some image -> tenant_key image = Some T ->
  BillingHandler.process_record record env w = BillingService.track_usage T image env w.
Proof.
  intros Hname Himage Hkey. unfold BillingHandler.process_record, tenant_key in *.
  destruct (Keys image) as [keys|] eqn:Hkeys; [|discriminate].
  destruct (Keys_tenant_id keys) as [attribute|] eqn:Hattribute; [|discriminate].
  destruct Hname as [Hname | Hname]; rewrite Hname; exec;
    [rewrite insert_kind | rewrite modify_kind];
    rewrite Himage; exec; rewrite Hkeys; exec; rewrite Hattribute; exec;
    rewrite Hkey; now exec.
Qed.

Lemma process_record_carries (T : string) (record : StreamRecord) (d : Z) env w :
  dynamodb_fault env = None -> sqs_fault env = None ->
  is_Some (billing_table w !! T) ->
  carries T record d ->
  exists w',
    BillingHandler.process_record record env w = (Ok tt, w') /\
    billing_table w' = <[T := (usage_of w T + inject_Z d)%Q]> (billing_table w) /\
    tenant_table w' = tenant_table w.
Proof.
  intros Hf Hs Hc [Hname (image & Himage & Hkey & Hd)].
  destruct (track_usage_run T image d env w Hf Hs Hd Hc) as (w' & Hrun & Hb & Ht & _).
  exists w'. split; [|auto].
  now rewrite (process_record_keyed T record image).
Qed.

Lemma for_each_carries (T : string) env :
  dynamodb_fault env = None -> sqs_fault env = None ->
  forall records ds, Forall2 (carries T) records ds ->
  forall w,
    is_Some (billing_table w !! T) ->
    exists w',
      for_each records BillingHandler.process_record env w = (Ok tt, w') /\
      (usage_of w' T == usage_of w T + inject_Z (sum ds))%Q /\
      is_Some (billing_table w' !! T) /\
      (forall T', T' <> T -> billing_table w' !! T' = billing_table w !! T') /\
      tenant_table w' = tenant_table w.
Proof.
  intros Hf Hs records ds HF.
  induction HF as [|record d records ds Hrd HF IH]; intros w Hc.
  - exists w. split; [reflexivity|]. split; [cbn; ring|]. auto.
  - destruct (process_record_carries T record d env w Hf Hs Hc Hrd)
      as (w1 & Hrun & Hb & Ht).
    assert (H1 : is_Some (billing_table w1 !! T)).
    { rewrite Hb, lookup_insert_eq. eauto. }
    destruct (IH w1 H1) as (w' & Hrest & Hu & Hsome & Hother & Ht').
    exists w'. split; [|repeat split].
    + cbn [for_each]. unfold bind. now rewrite Hrun.
    + rewrite Hu, sum_cons. unfold usage_of at 1. rewrite Hb, lookup_insert_eq.
      cbn [default id]. rewrite inject_Z_plus. ring.
    + exact Hsome.
    + intros T' Hne. rewrite Hother by assumption. rewrite Hb.
      now rewrite lookup_insert_ne.
    + congruence.
Qed.

Lemma sum_Permutation (ds ds' : list Z) : Permutation ds ds' -> sum ds = sum ds'.
Proof.
  induction 1; rewrite ?sum_cons; lia.
Qed.

(** C2.  The claim starts from a tenant [T] without a counter and has the
    first usage event create it.  The code does not: the update expression
    [SET usage_count = usage_count + :val] reads the absent attribute, the
    table refuses it, and nothing creates the counter.  With DynamoDB
    working, a batch of one or more Insert and Modify records of [T],
    delivered in any order, stops at its first record: the handler answers
    500 with the text of the refusal, and the table and the queue are as
    they were, so that [T] still has no counter. *)
Theorem first_usage_event_is_refused (T : string) (records : list StreamRecord)
    (ds : list Z) env w :
  dynamodb_fault env = None ->
  billing_table w !! T = None ->
  Forall2 (carries T) records ds ->
  records <> [] ->
  forall delivered, Permutation records delivered ->
  exists w',
    BillingHandler.lambda_handler (stream_event delivered) env w
    = (Ok {| statusCode := 500;
             response_body := ErrorBody DynamoDB.absent_attribute |}, w') /\
    billing_table w' = billing_table w /\
    queue w' = queue w /\
    usage_of w' T = 0%Q.
Proof.
  intros Hf Hnone HF Hne delivered Hperm.
  destruct (Permutation_Forall2 Hperm HF) as (ds' & _ & HF').
  destruct HF' as [|record d rest ds' [Hname (image & Himage & Hkey & Hd)] HF'].
  - apply Permutation_sym, Permutation_nil in Hperm. contradiction.
  - eexists. split; [|split; [|split]].
    + unfold BillingHandler.lambda_handler, stream_event. cbn [Records]. exec.
      cbn [for_each]. exec.
      rewrite (process_record_keyed T record image) by assumption.
      rewrite (track_usage_absent T image (inject_Z d))
        by (try apply number_int; assumption).
      exec. reflexivity.
    + unfold after_error. now autorewrite with world.
    + unfold after_error. now autorewrite with world.
    + unfold after_error, usage_of. autorewrite with world.
      cbn [billing_table with_calls]. now rewrite Hnone.
Qed.

Lemma first_usage_event_is_refused_witness :
  exists w',
    BillingHandler.lambda_handler
      (stream_event [change_record "MODIFY" "t1" (Some "5");
                     change_record "INSERT" "t1" (Some "10")])
      healthy empty_world
    = (Ok {| statusCode := 500;
             response_body := ErrorBody DynamoDB.absent_attribute |}, w') /\
    billing_table w' = billing_table empty_world /\
    queue w' = queue empty_world /\
    usage_of w' "t1" = 0%Q.
Proof.
  apply (first_usage_event_is_refused "t1"
           [change_record "INSERT" "t1" (Some "10"); change_record "MODIFY" "t1" (Some "5")]
           [10; 5] healthy empty_world); try reflexivity.
  - repeat constructor; eexists; repeat split; reflexivity.
  - discriminate.
  - apply perm_swap.
Defined.

Lemma tenant_isolation_witness :
  "tenant-a" <> "tenant-b" /\
  TenantService.get_tenant_data "tenant-b" "item1"
    {| claims_tenant_id := Some "tenant-a"; claims_sub := Some "user1" |}
    healthy sample_world
  = (Raise (ValueError "Unauthorized tenant access"), after_error healthy sample_world) /\
  TenantService.store_tenant_data "tenant-b" "item1" "{}"
    {| claims_tenant_id := Some "tenant-a"; claims_sub := Some "user1" |}
    healthy sample_world
  = (Raise (ValueError "Unauthorized tenant access"), after_error healthy sample_world) /\
  same_data sample_world (after_error healthy sample_world) /\
  calls (after_error healthy sample_world)
  = CloudWatchPutMetricData "Errors" :: calls sample_world /\
  BillingHandler.lambda_handler
    (get_billing_request "tenant-b"
       {| claims_tenant_id := Some "tenant-a"; claims_sub := Some "user1" |})
    healthy sample_world
  = (Ok {| statusCode := 403; response_body := ErrorBody "Unauthorized" |}, sample_world).
Proof.
  destruct (tenant_isolation "tenant-a" "tenant-b"
              {| claims_tenant_id := Some "tenant-a"; claims_sub := Some "user1" |}
              eq_refl ltac:(discriminate) healthy sample_world)
    as (Hget & Hstore & Hsame & Hcalls & Hbilling & _).
  split; [discriminate|].
  split; [apply Hget|]. split; [apply Hstore|]. auto.
Defined.

(** ** Batches of change records *)

Lemma for_each_app {A} (l1 l2 : list A) (body : A -> M unit) env w :
  for_each (l1 ++ l2) body env w
  = match for_each l1 body env w with
    | (Ok _, w1) => for_each l2 body env w1
    | (Raise e, w1) => (Raise e, w1)
    end.
Proof.
  revert w. induction l1 as [|x l1 IH]; intros w; [reflexivity|].
  cbn [for_each app]. unfold bind.
  destruct (body x env w) as [[[]|e] w1]; [apply IH | reflexivity].
Qed.

(** A usage that the table does not read as a number: the update is
    refused and [track_usage] raises, with the counters and the queue as
    they were. *)
Lemma track_usage_malformed (T : string) (image : StreamImage) env w :
  dynamodb_fault env = None ->
  number (default "0" (NewImage_usage_N image)) = None ->
  BillingService.track_usage T image env w
  = (Raise (ClientError (DynamoDB.invalid_number (default "0" (NewImage_usage_N image)))),
     after_error env
       (with_calls (DynamoUpdateItem DynamoDB.billing_table_name :: calls w) w)).
Proof.
  intros Hf Hd. unfold BillingService.track_usage, DynamoDB.update_item, service_call. exec.
  rewrite Hf, Hd. now exec.
Qed.

(** A usage that is a number but no integer literal, such as ["1.5"]: the
    table adds it to the counter, and then [int(usage)] raises before the
    message is sent.  The counter keeps the update. *)
Lemma track_usage_not_an_integer (T : string) (image : StreamImage) (q c : Q) env w :
  dynamodb_fault env = None ->
  number (default "0" (NewImage_usage_N image)) = Some q ->
  int (default "0" (NewImage_usage_N image)) = None ->
  billing_table w !! T = Some c ->
  BillingService.track_usage T image env w
  = (Raise (ValueError ("invalid literal for int() with base 10: '"
                        ++ default "0" (NewImage_usage_N image) ++ "'")),
     after_error env
       (with_billing_table (<[T := (c + q)%Q]> (billing_table w))
          (with_calls (DynamoUpdateItem DynamoDB.billing_table_name :: calls w) w))).
Proof.
  intros Hf Hq Hd Hc.
  unfold BillingService.track_usage, DynamoDB.update_item, service_call. exec.
  rewrite Hf, Hq. cbn [billing_table with_calls]. rewrite Hc. exec.
  rewrite resolve_json_billing. unfold py_int. rewrite Hd. now exec.
Qed.

Lemma handler_stops (before after : list StreamRecord) (failing : StreamRecord)
    (e : Exception) env w w1 w2 :
  for_each before BillingHandler.process_record env w = (Ok tt, w1) ->
  BillingHandler.process_record failing env w1 = (Raise e, w2) ->
  BillingHandler.lambda_handler (stream_event (before ++ failing :: after)) env w
  = (Ok {| statusCode := 500; response_body := ErrorBody (str e) |}, after_error env w2).
Proof.
  intros Hbefore Hfail.
  unfold BillingHandler.lambda_handler, stream_event. cbn [Records]. exec.
  rewrite for_each_app, Hbefore. cbn [for_each]. exec. rewrite Hfail. now exec.
Qed.

Lemma process_change_record (name T : string) (usage : option string) env w :
  name = "INSERT" \/ name = "MODIFY" ->
  BillingHandler.process_record (change_record name T usage) env w
  = BillingService.track_usage T (stream_image T usage) env w.
Proof.
  intros Hname. apply process_record_keyed; [|reflexivity..].
  unfold counted, change_record. cbn [eventName]. destruct Hname; subst; auto.
Qed.

(** C3, as amended.  The handler processes the records of a batch in order
    and stops at the first one that raises, whatever the cause: when the
    records [before] are processed and the next record raises [e], the
    handler answers 500 with the text of [e] and leaves the world as that
    record left it, with the error counted once more; the records [after]
    play no part.  What the failing record leaves depends on where it
    raised.  An Insert or Modify whose usage is no number is refused by the
    table: the counters and the queue stay as [before] left them.  One whose
    usage is a number but no integer literal has its usage added to the
    counter, and then [int] raises: the counter keeps the update and no
    message is sent. *)
Theorem batch_stops_at_first_failure (before after : list StreamRecord) env w w1 :
  for_each before BillingHandler.process_record env w = (Ok tt, w1) ->
  (forall failing e w2,
     BillingHandler.process_record failing env w1 = (Raise e, w2) ->
     BillingHandler.lambda_handler (stream_event (before ++ failing :: after)) env w
     = (Ok {| statusCode := 500; response_body := ErrorBody (str e) |},
        after_error env w2)) /\
  (forall name T usage,
     name = "INSERT" \/ name = "MODIFY" ->
     dynamodb_fault env = None ->
     number usage = None ->
     BillingHandler.lambda_handler
       (stream_event (before ++ change_record name T (Some usage) :: after)) env w
     = (Ok {| statusCode := 500;
              response_body := ErrorBody (DynamoDB.invalid_number usage) |},
        after_error env
          (after_error env
             (with_calls (DynamoUpdateItem DynamoDB.billing_table_name :: calls w1) w1)))) /\
  (forall name T usage q c,
     name = "INSERT" \/ name = "MODIFY" ->
     dynamodb_fault env = None ->
     number usage = Some q -> int usage = None ->
     billing_table w1 !! T = Some c ->
     BillingHandler.lambda_handler
       (stream_event (before ++ change_record name T (Some usage) :: after)) env w
     = (Ok {| statusCode := 500;
              response_body :=
                ErrorBody ("invalid literal for int() with base 10: '" ++ usage ++ "'") |},
        after_error env
          (after_error env
             (with_billing_table (<[T := (c + q)%Q]> (billing_table w1))
                (with_calls (DynamoUpdateItem DynamoDB.billing_table_name :: calls w1)
                   w1))))).
Proof.
  intros Hbefore. split; [|split].
  - intros failing e w2 Hfail. now apply handler_stops with (w1 := w1).
  - intros name T usage Hname Hf Hd.
    apply (handler_stops before after _ (ClientError (DynamoDB.invalid_number usage))
             env w w1);
      [assumption|].
    rewrite process_change_record by assumption.
    now apply track_usage_malformed.
  - intros name T usage q c Hname Hf Hq Hd Hc.
    apply (handler_stops before after _
             (ValueError ("invalid literal for int() with base 10: '" ++ usage ++ "'"))
             env w w1); [assumption|].
    rewrite process_change_record by assumption.
    now apply (track_usage_not_an_integer T (stream_image T (Some usage)) q c).
Qed.

Lemma batch_stops_at_first_failure_witness :
  exists w',
    BillingHandler.lambda_handler
      (stream_event [change_record "INSERT" "t1" (Some "5");
                     change_record "INSERT" "tenant-b" (Some "abc");
                     change_record "MODIFY" "t1" (Some "7")])
      healthy sample_world
    = (Ok {| statusCode := 500;
             response_body := ErrorBody (DynamoDB.invalid_number "abc") |}, w') /\
    billing_table w' !! "t1" = Some (55 # 1)%Q /\
    billing_table w' !! "tenant-b" = Some (10 # 1)%Q /\
    queue w' = [("t1", 5)].
Proof.
  destruct (batch_stops_at_first_failure
              [change_record "INSERT" "t1" (Some "5")]
              [change_record "MODIFY" "t1" (Some "7")]
              healthy sample_world
              (snd (for_each [change_record "INSERT" "t1" (Some "5")]
                      BillingHandler.process_record healthy sample_world))
              eq_refl)
    as (_ & Hmalformed & _).
  eexists. split.
  - apply (Hmalformed "INSERT" "tenant-b" "abc"); [left|..]; reflexivity.
  - vm_compute. repeat split.
Defined.

Lemma partial_batch_failure_counterexample :
  carries "t1" (change_record "INSERT" "t1" (Some "5")) 5 /\
  number "abc" = None /\
  statusCode <$> fst_ok (BillingHandler.lambda_handler
         (stream_event [change_record "INSERT" "tenant-b" (Some "abc");
                        change_record "INSERT" "t1" (Some "5")])
         healthy sample_world) = Some 500 /\
  billing_table
    (snd (BillingHandler.lambda_handler
            (stream_event [change_record "INSERT" "tenant-b" (Some "abc");
                           change_record "INSERT" "t1" (Some "5")])
            healthy sample_world)) = billing_table sample_world /\
  queue
    (snd (BillingHandler.lambda_handler
            (stream_event [change_record "INSERT" "tenant-b" (Some "abc");
                           change_record "INSERT" "t1" (Some "5")])
            healthy sample_world)) = [] /\
  billing_table
    (snd (BillingHandler.lambda_handler
            (stream_event [change_record "INSERT" "t1" (Some "5")])
            healthy sample_world)) !! "t1" = Some (55 # 1)%Q.
Proof.
  split; [split; [left; reflexivity | eexists; repeat split; reflexivity]|].
  split; [reflexivity|]. repeat split; vm_compute; reflexivity.
Qed.

(** A usage of ["1.5"] in the middle of a batch: the handler answers 500
    with the error of [int], and the counter has moved from 50 to 51.5. *)
Example batch_fails_after_counting_a_fraction :
  BillingHandler.lambda_handler
    (stream_event [change_record "INSERT" "t1" (Some "1.5");
                   change_record "INSERT" "t1" (Some "7")])
    healthy sample_world
  = (Ok {| statusCode := 500;
           response_body :=
             ErrorBody "invalid literal for int() with base 10: '1.5'" |},
     after_error healthy
       (after_error healthy
          (with_billing_table (<["t1" := (50 + (15 # 10))%Q]> (billing_table sample_world))
             (with_calls [DynamoUpdateItem DynamoDB.billing_table_name] sample_world)))).
Proof. reflexivity. Qed.

(** ** Billing summary *)



(** The summary of a tenant whose counter reads as the integer [n]. *)
Lemma get_billing_summary_run (tenant_id : string) (n : Z) env w :
  dynamodb_fault env = None ->
  to_integer (usage_of w tenant_id) = Some n ->
  finite (to_float n) = true ->
  BillingService.get_billing_summary tenant_id env w
  = (Ok {| summary_tenant_id := tenant_id;
           usage_count := n;
           total_cost :=
             round2 (SFmul prec emax (to_float n)
                       (default float_0_01 (config_cost_per_unit env))) |},
     with_calls (DynamoGetItem DynamoDB.billing_table_name :: calls w) w).
Proof.
  intros Hf Hn Hfinite.
  unfold BillingService.get_billing_summary, DynamoDB.get_usage_count, service_call,
    BillingService.cost_per_unit, usage_of in *.
  exec. rewrite Hf. exec. cbn [billing_table with_calls].
  destruct (billing_table w !! tenant_id) as [q|]; cbn [default id] in Hn.
  - unfold py_int_of_number. rewrite Hn. exec.
    unfold py_mul. rewrite Hfinite. now exec.
  - injection Hn as <-. unfold py_int. cbn [int digits digit]. exec.
    unfold py_mul. now exec.
Qed.



(** The floats [0.001], [0.01], [0.03], [0.05] and [0.1]. *)
Example float_0_001 :
  round_to_double false 1 1000 = S754_finite false 4611686018427388 (-62).
Proof. reflexivity. Qed.

Example float_0_03 :
  round_to_double false 3 100 = S754_finite false 8646911284551352 (-58).
Proof. reflexivity. Qed.

Example float_0_05 :
  round_to_double false 5 100 = S754_finite false 7205759403792794 (-57).
Proof. reflexivity. Qed.

Example float_0_1 :
  round_to_double false 10 100 = S754_finite false 7205759403792794 (-56).
Proof. reflexivity. Qed.

(** The rounding near half a cent follows the float product, which is not
    the exact one: at 0.001 per unit, 5 units cost 0.01 (the product is just
    above 0.005), 15 units cost 0.01 (just below 0.015) and 25 units cost
    0.03 (just above 0.025). *)
Example round2_5_units :
  round2 (SFmul prec emax (to_float 5) (round_to_double false 1 1000)) = float_0_01.
Proof. reflexivity. Qed.

Example round2_15_units :
  round2 (SFmul prec emax (to_float 15) (round_to_double false 1 1000)) = float_0_01.
Proof. reflexivity. Qed.

Example round2_25_units :
  round2 (SFmul prec emax (to_float 25) (round_to_double false 1 1000))
  = round_to_double false 3 100.
Proof. reflexivity. Qed.

Example round2_50_units :
  round2 (SFmul prec emax (to_float 50) (round_to_double false 1 1000))
  = round_to_double false 5 100.
Proof. reflexivity. Qed.

(** [10 * 0.01] is [0.1], as tests/test_billing_service.py expects. *)
Example round2_10_units :
  round2 (SFmul prec emax (to_float 10) float_0_01) = round_to_double false 10 100.
Proof. reflexivity. Qed.

(** A counter that is no integer makes the summary fail: [int] raises on
    the string the table answers. *)
Example billing_summary_of_a_fraction :
  fst (BillingService.get_billing_summary "t1" healthy
         (with_billing_table {[ "t1" := (515 # 10)%Q ]} empty_world))
  = Raise (ValueError "invalid literal for int() with base 10: '51.5'").
Proof. reflexivity. Qed.

(** ** Storing tenant data *)

Lemma resolve_json_tenant env w :
  resolve TenantService.globals "json" env w = (Raise (NameError "json"), w).
Proof. reflexivity. Qed.

(** [store_tenant_data] raises on every call: [ValueError] for a caller of
    another tenant, and [NameError] otherwise, since the module does not
    import [json]; [put_item] is never reached. *)
Lemma store_tenant_data_raises (T I P : string) (user : Claims) env w :
  TenantService.store_tenant_data T I P user env w
  = (Raise (if tenant_mismatch user T
            then ValueError "Unauthorized tenant access"
            else NameError "json"),
     after_error env w).
Proof.
  unfold TenantService.store_tenant_data. exec.
  destruct (tenant_mismatch user T); exec; [reflexivity|].
  rewrite resolve_json_tenant. now exec.
Qed.

Lemma get_tenant_data_run (T I : string) (user : Claims) env w :
  tenant_mismatch user T = false ->
  dynamodb_fault env = None ->
  fst (TenantService.get_tenant_data T I user env w) = Ok (tenant_table w !! (T, I)).
Proof.
  intros Hu Hf.
  unfold TenantService.get_tenant_data, DynamoDB.get_item, service_call. exec.
  rewrite Hu, Hf. exec. cbn [tenant_table with_calls].
  destruct (tenant_table w !! (T, I)); now exec.
Qed.

(** C5. Read after write, on the code.  For a caller of tenant [T] and an
    item that is not stored yet, [store_tenant_data] raises
    [NameError "json"] before it calls [put_item], the tenant table is
    unchanged, and the [get_tenant_data] that follows returns [None]: the
    payload is not read back. *)
Theorem store_then_get_misses_payload (T I P : string) (user : Claims) env w :
  claims_tenant_id user = Some T ->
  dynamodb_fault env = None ->
  tenant_table w !! (T, I) = None ->
  exists w',
    TenantService.store_tenant_data T I P user env w = (Raise (NameError "json"), w') /\
    store_calls w' = store_calls w /\
    tenant_table w' = tenant_table w /\
    fst (TenantService.get_tenant_data T I user env w') = Ok None.
Proof.
  intros Hu Hf Hnone. apply tenant_mismatch_eq in Hu.
  exists (after_error env w). rewrite store_tenant_data_raises, Hu.
  split; [reflexivity|]. unfold after_error.
  split; [apply after_metric_store_calls|].
  split; [apply after_metric_tenant_table|].
  rewrite get_tenant_data_run by assumption.
  now rewrite after_metric_tenant_table, Hnone.
Qed.

Lemma store_then_get_misses_payload_witness :
  exists w',
    TenantService.store_tenant_data "tenant1" "item1" "{}"
      {| claims_tenant_id := Some "tenant1"; claims_sub := Some "user1" |}
      healthy empty_world
    = (Raise (NameError "json"), w') /\
    store_calls w' = store_calls empty_world /\
    tenant_table w' = tenant_table empty_world /\
    fst (TenantService.get_tenant_data "tenant1" "item1"
           {| claims_tenant_id := Some "tenant1"; claims_sub := Some "user1" |}
           healthy w')
    = Ok None.
Proof.
  apply (store_then_get_misses_payload "tenant1" "item1" "{}"
           {| claims_tenant_id := Some "tenant1"; claims_sub := Some "user1" |}
           healthy empty_world); reflexivity.
Defined.

(** ** Onboarding *)

Lemma resolve_uuid_onboarding env w :
  resolve OnboardingService.globals "uuid" env w = (Ok tt, w).
Proof. reflexivity. Qed.

Lemma resolve_json_onboarding env w :
  resolve OnboardingService.globals "json" env w = (Raise (NameError "json"), w).
Proof. reflexivity. Qed.

Lemma has_user_signed_up (email tenant_id : string) (pool : list CognitoUser) :
  Cognito.has_user email
    (pool ++ [{| username := email; custom_tenant_id := tenant_id; confirmed := false |}])
  = true.
Proof.
  unfold Cognito.has_user. rewrite existsb_app. cbn.
  rewrite String.eqb_refl. now rewrite orb_true_r.
Qed.

(** [register_tenant] raises on every call and never writes to the tenant
    table: whatever Cognito answers, building the item stops at [json]. *)
Lemma register_tenant_raises (tenant_name email password : string) env w :
  exists e w',
    OnboardingService.register_tenant tenant_name email password env w = (Raise e, w') /\
    tenant_table w' = tenant_table w /\
    store_calls w' = store_calls w.
Proof.
  unfold OnboardingService.register_tenant, Cognito.sign_up,
    Cognito.admin_confirm_sign_up, service_call.
  exec. rewrite resolve_uuid_onboarding. exec.
  destruct (sign_up_fault env); exec;
    [eexists _, _; split; [reflexivity|]; unfold after_error;
     now rewrite after_metric_tenant_table, after_metric_store_calls|].
  cbn [user_pool with_calls].
  destruct (Cognito.has_user email (user_pool w)); exec;
    [eexists _, _; split; [reflexivity|]; unfold after_error;
     now rewrite after_metric_tenant_table, after_metric_store_calls|].
  cbn [calls with_calls with_user_pool].
  destruct (confirm_fault env); exec;
    [eexists _, _; split; [reflexivity|]; unfold after_error;
     now rewrite after_metric_tenant_table, after_metric_store_calls|].
  cbn [user_pool with_calls with_user_pool].
  rewrite has_user_signed_up. exec. rewrite resolve_json_onboarding. exec.
  eexists _, _; (split; [reflexivity|]); unfold after_error;
    now rewrite after_metric_tenant_table, after_metric_store_calls.
Qed.

(** The world after a successful sign-up and confirmation of [email]. *)
Lemma register_tenant_run (tenant_name email password : string) env w :
  sign_up_fault env = None -> confirm_fault env = None ->
  Cognito.has_user email (user_pool w) = false ->
  exists w',
    OnboardingService.register_tenant tenant_name email password env w
    = (Raise (NameError "json"), w') /\
    tenant_table w' = tenant_table w /\
    calls w' = CloudWatchPutMetricData "Errors" :: CognitoAdminConfirmSignUp
               :: CognitoSignUp :: calls w /\
    user_pool w'
    = map (Cognito.confirm email)
        (user_pool w ++
         [{| username := email; custom_tenant_id := uuid4 env; confirmed := false |}]).
Proof.
  intros Hs Hc Hu.
  unfold OnboardingService.register_tenant, Cognito.sign_up,
    Cognito.admin_confirm_sign_up, service_call.
  exec. rewrite resolve_uuid_onboarding. exec. rewrite Hs. exec.
  cbn [user_pool with_calls]. rewrite Hu. exec.
  cbn [calls with_calls with_user_pool]. rewrite Hc. exec.
  cbn [user_pool with_calls with_user_pool].
  rewrite has_user_signed_up. exec. rewrite resolve_json_onboarding. exec.
  eexists. split; [reflexivity|]. unfold after_error.
  now autorewrite with world.
Qed.

(** C6. Onboarding happy path, on the code.  With the three services working
    and an email that is not signed up yet, [register_tenant] signs the user
    up and confirms it, then raises [NameError "json"] while it builds the
    initial record: no tenant id is returned, [put_item] is not called, and
    the tenant table holds no ["tenant_info"] item for the generated id. *)
Theorem register_tenant_happy_path_raises (tenant_name email password : string) env w :
  sign_up_fault env = None -> confirm_fault env = None -> dynamodb_fault env = None ->
  Cognito.has_user email (user_pool w) = false ->
  tenant_table w !! (uuid4 env, "tenant_info") = None ->
  exists w',
    OnboardingService.register_tenant tenant_name email password env w
    = (Raise (NameError "json"), w') /\
    calls w' = CloudWatchPutMetricData "Errors" :: CognitoAdminConfirmSignUp
               :: CognitoSignUp :: calls w /\
    Cognito.has_user email (user_pool w') = true /\
    tenant_table w' !! (uuid4 env, "tenant_info") = None.
Proof.
  intros Hs Hc Hd Hu Hnone.
  destruct (register_tenant_run tenant_name email password env w Hs Hc Hu)
    as (w' & Hrun & Ht & Hcalls & Hpool).
  exists w'. repeat split; [assumption.. | | congruence].
  rewrite Hpool. unfold Cognito.has_user.
  rewrite existsb_exists.
  exists {| username := email; custom_tenant_id := uuid4 env; confirmed := true |}.
  split; [|cbn; apply String.eqb_refl].
  apply in_map_iff.
  exists {| username := email; custom_tenant_id := uuid4 env; confirmed := false |}.
  split; [unfold Cognito.confirm; cbn; now rewrite String.eqb_refl|].
  apply in_or_app. right. now left.
Qed.

Lemma register_tenant_happy_path_raises_witness :
  exists w',
    OnboardingService.register_tenant "Acme" "admin@acme.com" "pw" healthy empty_world
    = (Raise (NameError "json"), w') /\
    calls w' = CloudWatchPutMetricData "Errors" :: CognitoAdminConfirmSignUp
               :: CognitoSignUp :: calls empty_world /\
    Cognito.has_user "admin@acme.com" (user_pool w') = true /\
    tenant_table w' !! (uuid4 healthy, "tenant_info") = None.
Proof.
  apply (register_tenant_happy_path_raises "Acme" "admin@acme.com" "pw"
           healthy empty_world); reflexivity.
Defined.

(** ** Error responses *)

Lemma prefix_refl (s : string) : String.prefix s s = true.
Proof.
  induction s as [|c s IH]; [reflexivity|].
  cbn. destruct (ascii_dec c c); [assumption | contradiction].
Qed.

Lemma contains_refl (s : string) : contains s s = true.
Proof.
  destruct s as [|c s]; [reflexivity|].
  change (contains (String c s) (String c s))
    with (String.prefix (String c s) (String c s) || contains (String c s) s).
  now rewrite prefix_refl.
Qed.

Lemma error_body_contains (text : string) : body_contains text (ErrorBody text) = true.
Proof. unfold body_contains. cbn. now rewrite contains_refl. Qed.

(** A failing read of the billing counter, through the handler. *)
Lemma billing_get_store_failure (T msg : string) (user : Claims) env w :
  claims_tenant_id user = Some T ->
  dynamodb_fault env = Some msg ->
  fst (BillingHandler.lambda_handler (get_billing_request T user) env w)
  = Ok {| statusCode := 500; response_body := ErrorBody msg |}.
Proof.
  intros Hu Hf. apply tenant_mismatch_eq in Hu.
  unfold BillingHandler.lambda_handler, get_billing_request, api_event,
    BillingService.get_billing_summary, DynamoDB.get_usage_count, service_call.
  cbn [Records httpMethod path claims pathParameters_tenant_id]. exec.
  change (String.eqb "GET" "GET"
          && contains "/billing/{tenant_id}" "/billing/{tenant_id}") with true.
  cbv beta iota. rewrite Hu, Hf. now exec.
Qed.

(** A failing read of a tenant item, through the handler. *)
Lemma tenant_get_store_failure (T I msg : string) (user : Claims) env w :
  claims_tenant_id user = Some T ->
  dynamodb_fault env = Some msg ->
  fst (TenantHandler.lambda_handler (get_data_request T I user) env w)
  = Ok {| statusCode := 500; response_body := ErrorBody msg |}.
Proof.
  intros Hu Hf. apply tenant_mismatch_eq in Hu.
  unfold TenantHandler.lambda_handler, get_data_request, api_event,
    TenantService.get_tenant_data, DynamoDB.get_item, service_call.
  cbn [Records httpMethod path claims pathParameters_tenant_id pathParameters_item_id].
  exec.
  change (String.eqb "GET" "GET"
          && contains "/tenants/{tenant_id}/data/{item_id}"
               "/tenants/{tenant_id}/data/{item_id}") with true.
  cbv beta iota. rewrite Hu, Hf. now exec.
Qed.

(** A failing sign-up at the identity provider, through the handler. *)
Lemma onboarding_sign_up_failure (tenant_name email password msg : string) env w :
  sign_up_fault env = Some msg ->
  fst (OnboardingHandler.lambda_handler
         (onboarding_request tenant_name email password) env w)
  = Ok {| statusCode := 500; response_body := ErrorBody msg |}.
Proof.
  intros Hf.
  unfold OnboardingHandler.lambda_handler, onboarding_request, api_event,
    OnboardingService.register_tenant, Cognito.sign_up, service_call.
  cbn [httpMethod path body body_tenant_name body_email body_password].
  exec.
  change (String.eqb "POST" "POST") with true.
  change (String.eqb "/onboarding" "/onboarding") with true.
  exec. rewrite resolve_uuid_onboarding. exec. rewrite Hf. now exec.
Qed.

(** A failing counter update or queue publication, through the handler. *)
Lemma stream_store_failure (name T msg : string) (usage : option string)
    (rest : list StreamRecord) env w :
  name = "INSERT" \/ name = "MODIFY" ->
  dynamodb_fault env = Some msg ->
  fst (BillingHandler.lambda_handler
         (stream_event (change_record name T usage :: rest)) env w)
  = Ok {| statusCode := 500; response_body := ErrorBody msg |}.
Proof.
  intros Hname Hf.
  unfold BillingHandler.lambda_handler, stream_event.
  cbn [Records for_each]. exec. rewrite process_change_record by assumption.
  unfold BillingService.track_usage, DynamoDB.update_item, service_call. exec.
  rewrite Hf. now exec.
Qed.

Lemma stream_queue_failure (name T usage msg : string) (d : Z)
    (rest : list StreamRecord) env w :
  name = "INSERT" \/ name = "MODIFY" ->
  dynamodb_fault env = None ->
  is_Some (billing_table w !! T) ->
  int usage = Some d ->
  sqs_fault env = Some msg ->
  fst (BillingHandler.lambda_handler
         (stream_event (change_record name T (Some usage) :: rest)) env w)
  = Ok {| statusCode := 500; response_body := ErrorBody msg |}.
Proof.
  intros Hname Hf Hz Hd Hs.
  unfold BillingHandler.lambda_handler, stream_event.
  cbn [Records for_each]. exec. rewrite process_change_record by assumption.
  unfold BillingService.track_usage. exec.
  change (default "0" (NewImage_usage_N (stream_image T (Some usage)))) with usage.
  rewrite (update_item_run T usage d) by auto.
  rewrite resolve_json_billing. unfold py_int. rewrite Hd. exec.
  unfold SQS.send_message, service_call. rewrite Hs. now exec.
Qed.

(** C7, as amended.  When a dependency fails with the text [msg] (DynamoDB on
    a billing read, a tenant data read or a counter update, Cognito on a
    sign-up, SQS on the publication of a usage message), the handler answers
    500 and its body is [{"error": msg}]: the text of the exception is
    returned to the caller. *)
Theorem dependency_errors_are_echoed (msg : string) env w :
  (forall T user,
      claims_tenant_id user = Some T -> dynamodb_fault env = Some msg ->
      fst (BillingHandler.lambda_handler (get_billing_request T user) env w)
      = Ok {| statusCode := 500; response_body := ErrorBody msg |}) /\
  (forall T I user,
      claims_tenant_id user = Some T -> dynamodb_fault env = Some msg ->
      fst (TenantHandler.lambda_handler (get_data_request T I user) env w)
      = Ok {| statusCode := 500; response_body := ErrorBody msg |}) /\
  (forall tenant_name email password,
      sign_up_fault env = Some msg ->
      fst (OnboardingHandler.lambda_handler
             (onboarding_request tenant_name email password) env w)
      = Ok {| statusCode := 500; response_body := ErrorBody msg |}) /\
  (forall name T usage rest,
      name = "INSERT" \/ name = "MODIFY" -> dynamodb_fault env = Some msg ->
      fst (BillingHandler.lambda_handler
             (stream_event (change_record name T usage :: rest)) env w)
      = Ok {| statusCode := 500; response_body := ErrorBody msg |}) /\
  (forall name T usage d rest,
      name = "INSERT" \/ name = "MODIFY" -> dynamodb_fault env = None ->
      is_Some (billing_table w !! T) -> int usage = Some d ->
      sqs_fault env = Some msg ->
      fst (BillingHandler.lambda_handler
             (stream_event (change_record name T (Some usage) :: rest)) env w)
      = Ok {| statusCode := 500; response_body := ErrorBody msg |}) /\
  body_contains msg (ErrorBody msg) = true.
Proof.
  repeat split.
  - intros. now apply billing_get_store_failure.
  - intros. now apply tenant_get_store_failure.
  - intros. now apply onboarding_sign_up_failure.
  - intros. now apply stream_store_failure.
  - intros. now apply stream_queue_failure with (d := d).
  - apply error_body_contains.
Qed.

Lemma dependency_errors_are_echoed_witness :
  fst (BillingHandler.lambda_handler
         (get_billing_request "t1" {| claims_tenant_id := Some "t1"; claims_sub := None |})
         (with_dynamodb_fault (Some table_not_found) healthy) sample_world)
  = Ok {| statusCode := 500; response_body := ErrorBody table_not_found |}.
Proof.
  apply (dependency_errors_are_echoed table_not_found
           (with_dynamodb_fault (Some table_not_found) healthy) sample_world);
    reflexivity.
Defined.

Lemma opaque_dependency_errors_counterexample :
  dynamodb_fault (with_dynamodb_fault (Some table_not_found) healthy)
  = Some table_not_found /\
  option_map (fun r => (statusCode r, body_contains table_not_found (response_body r)))
    (fst_ok (BillingHandler.lambda_handler
               (get_billing_request "t1"
                  {| claims_tenant_id := Some "t1"; claims_sub := None |})
               (with_dynamodb_fault (Some table_not_found) healthy) sample_world))
  = Some (500, true).
Proof. split; vm_compute; reflexivity. Qed.

(** ** The error metric *)

(** An [except] block that records the error and raises again adds one to
    the metric, when the block it guards has left the metric alone. *)
Lemma reraise_errors {A} (body : M A) env w e w' :
  cloudwatch_fault env = None ->
  (forall e1 w1, body env w = (Raise e1, w1) -> errors w1 = errors w) ->
  try_except body (fun e => MetricsCollector.record_error ;;; raise e) env w
  = (Raise e, w') ->
  errors w' = errors w + 1.
Proof.
  intros Hc Hbody. exec.
  destruct (body env w) as [[a|e1] w1] eqn:E; [discriminate|].
  exec. intros [= <- <-]. fold (after_error env w1).
  rewrite after_error_errors by assumption. now rewrite (Hbody e1 w1).
Qed.

Lemma get_tenant_data_errors (T I : string) (user : Claims) env w e w' :
  cloudwatch_fault env = None ->
  TenantService.get_tenant_data T I user env w = (Raise e, w') ->
  errors w' = errors w + 1.
Proof.
  intros Hc. unfold TenantService.get_tenant_data. apply reraise_errors; [assumption|].
  intros e1 w1. unfold DynamoDB.get_item, service_call. exec.
  destruct (tenant_mismatch user T); [now intros [= <- <-]|].
  destruct (dynamodb_fault env); exec; [now intros [= <- <-]|].
  destruct (tenant_table _ !! _); exec; discriminate.
Qed.

Lemma store_tenant_data_errors (T I P : string) (user : Claims) env w e w' :
  cloudwatch_fault env = None ->
  TenantService.store_tenant_data T I P user env w = (Raise e, w') ->
  errors w' = errors w + 1.
Proof.
  intros Hc. rewrite store_tenant_data_raises. intros [= <- <-].
  now apply after_error_errors.
Qed.

Lemma track_usage_errors (T : string) (image : StreamImage) env w e w' :
  cloudwatch_fault env = None ->
  BillingService.track_usage T image env w = (Raise e, w') ->
  errors w' = errors w + 1.
Proof.
  intros Hc. unfold BillingService.track_usage. apply reraise_errors; [assumption|].
  intros e1 w1.
  unfold DynamoDB.update_item, SQS.send_message, service_call, py_int. exec.
  destruct (dynamodb_fault env); exec; [now intros [= <- <-]|].
  destruct (number _) as [q|]; exec; [|now intros [= <- <-]].
  cbn [billing_table with_calls].
  destruct (billing_table w !! T); exec; [|now intros [= <- <-]].
  rewrite resolve_json_billing. exec.
  destruct (int _) as [d|]; exec; [|now intros [= <- <-]].
  destruct (sqs_fault env); exec; [now intros [= <- <-] | discriminate].
Qed.

Lemma get_billing_summary_errors (T : string) env w e w' :
  cloudwatch_fault env = None ->
  BillingService.get_billing_summary T env w = (Raise e, w') ->
  errors w' = errors w + 1.
Proof.
  intros Hc. unfold BillingService.get_billing_summary. apply reraise_errors; [assumption|].
  intros e1 w1.
  unfold DynamoDB.get_usage_count, service_call, BillingService.cost_per_unit,
    py_int_of_number, py_int, py_mul.
  exec.
  destruct (dynamodb_fault env); exec; [now intros [= <- <-]|].
  cbn [billing_table with_calls].
  destruct (billing_table w !! T) as [q|];
    [destruct (to_integer q); exec; [|now intros [= <- <-]]
    |change (int "0") with (Some 0); exec];
    (destruct (finite _); exec; [discriminate | now intros [= <- <-]]).
Qed.

Lemma register_tenant_errors (tenant_name email password : string) env w e w' :
  cloudwatch_fault env = None ->
  OnboardingService.register_tenant tenant_name email password env w = (Raise e, w') ->
  errors w' = errors w + 1.
Proof.
  intros Hc. unfold OnboardingService.register_tenant.
  apply reraise_errors; [assumption|].
  intros e1 w1.
  unfold Cognito.sign_up, Cognito.admin_confirm_sign_up, DynamoDB.put_item, service_call.
  exec. rewrite resolve_uuid_onboarding. exec.
  destruct (sign_up_fault env); exec; [now intros [= <- <-]|].
  cbn [user_pool with_calls].
  destruct (Cognito.has_user email (user_pool w)); exec; [now intros [= <- <-]|].
  cbn [calls with_calls with_user_pool].
  destruct (confirm_fault env); exec; [now intros [= <- <-]|].
  cbn [user_pool with_calls with_user_pool].
  rewrite has_user_signed_up. exec. rewrite resolve_json_onboarding. exec.
  now intros [= <- <-].
Qed.

(** What each handler answers when the service method it calls raises. *)
Lemma tenant_get_reraised (T I : string) (user : Claims) env w e w1 :
  TenantService.get_tenant_data T I user env w = (Raise e, w1) ->
  TenantHandler.lambda_handler (get_data_request T I user) env w
  = (Ok {| statusCode := 500; response_body := ErrorBody (str e) |}, after_error env w1).
Proof.
  intros Hrun. unfold TenantHandler.lambda_handler, get_data_request, api_event. exec.
  change (String.eqb "GET" "GET"
          && contains "/tenants/{tenant_id}/data/{item_id}"
               "/tenants/{tenant_id}/data/{item_id}") with true.
  exec. rewrite Hrun. now exec.
Qed.

Lemma tenant_post_reraised (T I P : string) (user : Claims) env w e w1 :
  TenantService.store_tenant_data T I P user env w = (Raise e, w1) ->
  TenantHandler.lambda_handler (post_data_request T I P user) env w
  = (Ok {| statusCode := 500; response_body := ErrorBody (str e) |}, after_error env w1).
Proof.
  intros Hrun. unfold TenantHandler.lambda_handler, post_data_request, api_event. exec.
  change (String.eqb "POST" "GET"
          && contains "/tenants/{tenant_id}/data/{item_id}"
               "/tenants/{tenant_id}/data") with false.
  change (String.eqb "POST" "POST"
          && contains "/tenants/{tenant_id}/data" "/tenants/{tenant_id}/data") with true.
  exec. rewrite Hrun. now exec.
Qed.

Lemma billing_get_reraised (T : string) (user : Claims) env w e w1 :
  tenant_mismatch user T = false ->
  BillingService.get_billing_summary T env w = (Raise e, w1) ->
  BillingHandler.lambda_handler (get_billing_request T user) env w
  = (Ok {| statusCode := 500; response_body := ErrorBody (str e) |}, after_error env w1).
Proof.
  intros Hu Hrun. unfold BillingHandler.lambda_handler, get_billing_request, api_event.
  exec.
  change (String.eqb "GET" "GET"
          && contains "/billing/{tenant_id}" "/billing/{tenant_id}") with true.
  exec. rewrite Hu, Hrun. now exec.
Qed.

Lemma stream_reraised (name T : string) (usage : option string)
    (rest : list StreamRecord) env w e w1 :
  name = "INSERT" \/ name = "MODIFY" ->
  BillingService.track_usage T (stream_image T usage) env w = (Raise e, w1) ->
  BillingHandler.lambda_handler (stream_event (change_record name T usage :: rest)) env w
  = (Ok {| statusCode := 500; response_body := ErrorBody (str e) |}, after_error env w1).
Proof.
  intros Hname Hrun.
  apply (handler_stops [] rest (change_record name T usage) e env w w w1); [reflexivity|].
  now rewrite process_change_record.
Qed.

Lemma onboarding_reraised (tenant_name email password : string) env w e w1 :
  OnboardingService.register_tenant tenant_name email password env w = (Raise e, w1) ->
  OnboardingHandler.lambda_handler (onboarding_request tenant_name email password) env w
  = (Ok {| statusCode := 500; response_body := ErrorBody (str e) |}, after_error env w1).
Proof.
  intros Hrun. unfold OnboardingHandler.lambda_handler, onboarding_request, api_event.
  exec.
  change (String.eqb "POST" "POST") with true. exec.
  change (String.eqb "/onboarding" "/onboarding") with true. exec.
  rewrite Hrun. now exec.
Qed.

(** C8, as amended.  With CloudWatch working, every service method that
    raises has added exactly 1 to the error metric, in its own [except]
    block; the handler that called it catches the exception, answers 500 and
    adds 1 more in its [except] block, so that a failure of a service method
    reached through its handler adds exactly 2. *)
Theorem errors_counted_in_each_except_block env w :
  cloudwatch_fault env = None ->
  (forall T I user e w1,
      TenantService.get_tenant_data T I user env w = (Raise e, w1) ->
      errors w1 = errors w + 1 /\
      exists w',
        TenantHandler.lambda_handler (get_data_request T I user) env w
        = (Ok {| statusCode := 500; response_body := ErrorBody (str e) |}, w') /\
        errors w' = errors w + 2) /\
  (forall T I P user e w1,
      TenantService.store_tenant_data T I P user env w = (Raise e, w1) ->
      errors w1 = errors w + 1 /\
      exists w',
        TenantHandler.lambda_handler (post_data_request T I P user) env w
        = (Ok {| statusCode := 500; response_body := ErrorBody (str e) |}, w') /\
        errors w' = errors w + 2) /\
  (forall name T usage rest e w1,
      name = "INSERT" \/ name = "MODIFY" ->
      BillingService.track_usage T (stream_image T usage) env w = (Raise e, w1) ->
      errors w1 = errors w + 1 /\
      exists w',
        BillingHandler.lambda_handler
          (stream_event (change_record name T usage :: rest)) env w
        = (Ok {| statusCode := 500; response_body := ErrorBody (str e) |}, w') /\
        errors w' = errors w + 2) /\
  (forall T user e w1,
      claims_tenant_id user = Some T ->
      BillingService.get_billing_summary T env w = (Raise e, w1) ->
      errors w1 = errors w + 1 /\
      exists w',
        BillingHandler.lambda_handler (get_billing_request T user) env w
        = (Ok {| statusCode := 500; response_body := ErrorBody (str e) |}, w') /\
        errors w' = errors w + 2) /\
  (forall tenant_name email password e w1,
      OnboardingService.register_tenant tenant_name email password env w = (Raise e, w1) ->
      errors w1 = errors w + 1 /\
      exists w',
        OnboardingHandler.lambda_handler
          (onboarding_request tenant_name email password) env w
        = (Ok {| statusCode := 500; response_body := ErrorBody (str e) |}, w') /\
        errors w' = errors w + 2).
Proof.
  intros Hc.
  assert (Htwice : forall w1, errors w1 = errors w + 1 ->
                              errors (after_error env w1) = errors w + 2).
  { intros w1 H1. rewrite after_error_errors by assumption. lia. }
  repeat apply conj.
  - intros T I user e w1 Hrun.
    pose proof (get_tenant_data_errors T I user env w e w1 Hc Hrun) as H1.
    split; [assumption|]. exists (after_error env w1).
    split; [now apply tenant_get_reraised | now apply Htwice].
  - intros T I P user e w1 Hrun.
    pose proof (store_tenant_data_errors T I P user env w e w1 Hc Hrun) as H1.
    split; [assumption|]. exists (after_error env w1).
    split; [now apply tenant_post_reraised | now apply Htwice].
  - intros name T usage rest e w1 Hname Hrun.
    pose proof (track_usage_errors T _ env w e w1 Hc Hrun) as H1.
    split; [assumption|]. exists (after_error env w1).
    split; [now apply stream_reraised | now apply Htwice].
  - intros T user e w1 Hu Hrun. apply tenant_mismatch_eq in Hu.
    pose proof (get_billing_summary_errors T env w e w1 Hc Hrun) as H1.
    split; [assumption|]. exists (after_error env w1).
    split; [now apply billing_get_reraised | now apply Htwice].
  - intros tenant_name email password e w1 Hrun.
    pose proof (register_tenant_errors tenant_name email password env w e w1 Hc Hrun) as H1.
    split; [assumption|]. exists (after_error env w1).
    split; [now apply onboarding_reraised | now apply Htwice].
Qed.

Lemma errors_counted_in_each_except_block_witness :
  errors (after_error healthy sample_world) = errors sample_world + 1 /\
  exists w',
    TenantHandler.lambda_handler
      (get_data_request "tenant-b" "item1"
         {| claims_tenant_id := Some "tenant-a"; claims_sub := Some "user1" |})
      healthy sample_world
    = (Ok {| statusCode := 500;
             response_body := ErrorBody (str (ValueError "Unauthorized tenant access")) |},
       w') /\
    errors w' = errors sample_world + 2.
Proof.
  apply (errors_counted_in_each_except_block healthy sample_world eq_refl).
  apply get_tenant_data_mismatch. reflexivity.
Defined.

Lemma error_metric_once_counterexample :
  fst (TenantService.get_tenant_data "tenant-b" "item1"
         {| claims_tenant_id := Some "tenant-a"; claims_sub := Some "user1" |}
         healthy sample_world)
  = Raise (ValueError "Unauthorized tenant access") /\
  errors sample_world = 0 /\
  errors
    (snd (TenantHandler.lambda_handler
            (get_data_request "tenant-b" "item1"
               {| claims_tenant_id := Some "tenant-a"; claims_sub := Some "user1" |})
            healthy sample_world))
  = 2.
Proof. repeat split; vm_compute; reflexivity. Qed.

(** ** Monotonicity of the counters *)

(** Reading a table of the world an expression has left. *)
Ltac settle :=
  cbn [fst snd]; unfold after_error; autorewrite with world;
  cbn [tenant_table billing_table queue user_pool calls with_tenant_table
       with_billing_table with_queue with_user_pool with_calls].

(** One call of [track_usage] leaves the counters as they are or adds the
    delta of the record to the counter of its tenant. *)
Lemma track_usage_counters (T : string) (image : StreamImage) env w :
  billing_table (snd (BillingService.track_usage T image env w)) = billing_table w \/
  exists c d,
    billing_table w !! T = Some c /\
    number (default "0" (NewImage_usage_N image)) = Some d /\
    billing_table (snd (BillingService.track_usage T image env w))
    = <[T := (c + d)%Q]> (billing_table w).
Proof.
  unfold BillingService.track_usage, DynamoDB.update_item, SQS.send_message,
    service_call, py_int.
  exec.
  destruct (dynamodb_fault env); exec; [left; now settle|].
  destruct (number _) as [d|]; exec; [|left; now settle].
  cbn [billing_table with_calls].
  destruct (billing_table w !! T) as [c|]; exec; [|left; now settle].
  right. exists c, d. split; [reflexivity|]. split; [reflexivity|].
  rewrite resolve_json_billing. exec.
  destruct (int _); exec; [|now settle].
  destruct (sqs_fault env); exec; now settle.
Qed.

Lemma kind_counted (name : string) :
  bool_decide (name ∈ ["INSERT"; "MODIFY"]) = true <->
  name = "INSERT" \/ name = "MODIFY".
Proof.
  rewrite bool_decide_eq_true, !elem_of_cons, elem_of_nil. tauto.
Qed.

Lemma process_record_counters (record : StreamRecord) env w :
  billing_table (snd (BillingHandler.process_record record env w)) = billing_table w \/
  exists T c d,
    counted record /\
    delta_of record = Some d /\
    billing_table w !! T = Some c /\
    billing_table (snd (BillingHandler.process_record record env w))
    = <[T := (c + d)%Q]> (billing_table w).
Proof.
  unfold BillingHandler.process_record, delta_of, counted. exec.
  destruct (eventName record) as [name|]; exec; [|now left].
  destruct (bool_decide (name ∈ ["INSERT"; "MODIFY"])) eqn:Hname; [|now left].
  apply kind_counted in Hname.
  destruct (dynamodb record) as [image|]; exec; [|now left].
  destruct (Keys image) as [keys|]; exec; [|now left].
  destruct (Keys_tenant_id keys) as [attribute|]; exec; [|now left].
  destruct (attribute_S attribute) as [T|]; exec; [|now left].
  destruct (track_usage_counters T image env w) as [H | (c & d & Hc & Hd & H)];
    [now left|].
  right. exists T, c, d. split; [|auto].
  destruct Hname as [-> | ->]; auto.
Qed.

Lemma usage_of_insert (T t : string) (v : Q) (w w' : World) :
  billing_table w' = <[T := v]> (billing_table w) ->
  usage_of w' t = if decide (T = t) then v else usage_of w t.
Proof.
  intros H. unfold usage_of. rewrite H, lookup_insert.
  now destruct (decide (T = t)).
Qed.

Lemma process_record_monotone (record : StreamRecord) env w t :
  non_negative record ->
  (usage_of w t <= usage_of (snd (BillingHandler.process_record record env w)) t)%Q.
Proof.
  intros Hnn.
  destruct (process_record_counters record env w) as [H | (T & c & d & Hk & Hd & Hc & H)].
  - unfold usage_of. rewrite H. apply Qle_refl.
  - rewrite (usage_of_insert T t _ w _ H).
    destruct (decide (T = t)) as [->|]; [|apply Qle_refl].
    specialize (Hnn d Hk Hd). unfold usage_of. rewrite Hc. cbn [default id].
    apply Qle_trans with (c + 0)%Q; [rewrite Qplus_0_r; apply Qle_refl|].
    now apply Qplus_le_r.
Qed.

Lemma for_each_monotone (records : list StreamRecord) env :
  Forall non_negative records ->
  forall w t,
    (usage_of w t
     <= usage_of (snd (for_each records BillingHandler.process_record env w)) t)%Q.
Proof.
  induction 1 as [|record records Hnn _ IH]; intros w t; [apply Qle_refl|].
  cbn [for_each]. unfold bind.
  pose proof (process_record_monotone record env w t Hnn) as H1.
  destruct (BillingHandler.process_record record env w) as [[[]|e] w1]; cbn [snd] in *.
  - specialize (IH w1 t). now apply Qle_trans with (usage_of w1 t).
  - assumption.
Qed.

(** The handler leaves the counters as the loop over the records left them. *)
Lemma stream_handler_counters (records : list StreamRecord) env w :
  billing_table (snd (BillingHandler.lambda_handler (stream_event records) env w))
  = billing_table (snd (for_each records BillingHandler.process_record env w)).
Proof.
  unfold BillingHandler.lambda_handler, stream_event. exec.
  destruct (for_each records BillingHandler.process_record env w) as [[[]|e] w1];
    exec; now settle.
Qed.

Lemma for_each_other_kinds (records : list StreamRecord) env w :
  Forall (fun record => exists name,
              eventName record = Some name /\ name <> "INSERT" /\ name <> "MODIFY")
    records ->
  for_each records BillingHandler.process_record env w = (Ok tt, w).
Proof.
  induction 1 as [|record records (name & Hname & Hi & Hm) _ IH]; [reflexivity|].
  cbn [for_each]. unfold BillingHandler.process_record at 1. rewrite Hname. exec.
  rewrite bool_decide_eq_false_2 by (rewrite !elem_of_cons, elem_of_nil; tauto).
  exact IH.
Qed.

(** C9, as amended.  A counter is a number that only changes by the
    addition of the usage of an Insert or Modify record, as the table reads
    it.  Processing a batch of change records never lowers a counter when
    every Insert or Modify record of the batch carries a usage that the
    table reads as a number that is not negative, or as no number at all,
    and then counters that were not negative stay so; a batch of records of
    other kinds (Remove) leaves every counter as it was. *)
Theorem counters_monotone_for_non_negative_deltas (records : list StreamRecord) env w :
  (Forall non_negative records ->
   (forall t,
       (usage_of w t
        <= usage_of (snd (BillingHandler.lambda_handler (stream_event records) env w)) t)%Q) /\
   ((forall t, (0 <= usage_of w t)%Q) ->
    forall t,
      (0 <= usage_of (snd (BillingHandler.lambda_handler (stream_event records) env w)) t)%Q)) /\
  (Forall (fun record => exists name,
               eventName record = Some name /\ name <> "INSERT" /\ name <> "MODIFY")
     records ->
   billing_table (snd (BillingHandler.lambda_handler (stream_event records) env w))
   = billing_table w).
Proof.
  split.
  - intros Hnn.
    assert (Hmono : forall t,
      (usage_of w t
       <= usage_of (snd (BillingHandler.lambda_handler (stream_event records) env w)) t)%Q).
    { intros t. unfold usage_of at 2. rewrite stream_handler_counters.
      apply (for_each_monotone records env Hnn w t). }
    split; [exact Hmono|].
    intros H0 t. now apply Qle_trans with (usage_of w t).
  - intros Hkinds. rewrite stream_handler_counters.
    now rewrite for_each_other_kinds.
Qed.

Lemma counters_monotone_for_non_negative_deltas_witness :
  (usage_of sample_world "t1"
   <= usage_of
        (snd (BillingHandler.lambda_handler
                (stream_event [change_record "INSERT" "t1" (Some "7.5");
                               change_record "REMOVE" "t1" (Some "-3")])
                healthy sample_world))
        "t1")%Q.
Proof.
  apply (counters_monotone_for_non_negative_deltas
           [change_record "INSERT" "t1" (Some "7.5");
            change_record "REMOVE" "t1" (Some "-3")] healthy sample_world).
  repeat constructor.
  - intros d _ Hd. vm_compute in Hd. injection Hd as <-. unfold Qle. cbn. lia.
  - intros d [Hk | Hk] _; discriminate Hk.
Defined.

Lemma counter_monotonicity_counterexample :
  carries "t1" (change_record "INSERT" "t1" (Some "-5")) (-5) /\
  usage_of sample_world "t1" = 50%Q /\
  usage_of
    (snd (BillingHandler.lambda_handler
            (stream_event [change_record "INSERT" "t1" (Some "-5")])
            healthy sample_world))
    "t1"
  = (45 # 1)%Q /\
  number "-1.5" = Some (-15 # 10)%Q /\
  usage_of
    (snd (BillingHandler.lambda_handler
            (stream_event [change_record "INSERT" "t1" (Some "-1.5")])
            healthy sample_world))
    "t1"
  = (485 # 10)%Q.
Proof.
  split; [split; [left; reflexivity | eexists; repeat split; reflexivity]|].
  repeat split; vm_compute; reflexivity.
Qed.

(** ** Metrics and the outcome of an operation *)

Section MetricsBlind.
Context {A B : Type}.

Lemma blind_ret (a : A) : metrics_blind (ret a).
Proof. intros e1 e2 w1 w2 _ Hw. now split. Qed.

Lemma blind_raise (e : Exception) : metrics_blind (raise (A := A) e).
Proof. intros e1 e2 w1 w2 _ Hw. now split. Qed.

Lemma blind_bind (m : M A) (k : A -> M B) :
  metrics_blind m -> (forall a, metrics_blind (k a)) -> metrics_blind (bind m k).
Proof.
  intros Hm Hk e1 e2 w1 w2 He Hw. unfold bind.
  destruct (Hm e1 e2 w1 w2 He Hw) as [Hr Hw'].
  destruct (m e1 w1) as [r1 w1'], (m e2 w2) as [r2 w2']. cbn [fst snd] in *. subst r2.
  destruct r1 as [a|e]; [now apply Hk | now split].
Qed.

Lemma blind_try_except (body : M A) (handler : Exception -> M A) :
  metrics_blind body -> (forall e, metrics_blind (handler e)) ->
  metrics_blind (try_except body handler).
Proof.
  intros Hm Hk e1 e2 w1 w2 He Hw. unfold try_except.
  destruct (Hm e1 e2 w1 w2 He Hw) as [Hr Hw'].
  destruct (body e1 w1) as [r1 w1'], (body e2 w2) as [r2 w2']. cbn [fst snd] in *.
  subst r2. destruct r1 as [a|e]; [now split | now apply Hk].
Qed.

Lemma blind_getitem (key : string) (field : option A) : metrics_blind (getitem key field).
Proof. destruct field; [apply blind_ret | apply blind_raise]. Qed.

End MetricsBlind.

Lemma blind_resolve (globals : list string) (name : string) :
  metrics_blind (resolve globals name).
Proof. unfold resolve. destruct (bool_decide _); [apply blind_ret | apply blind_raise]. Qed.

Lemma blind_py_int (s : string) : metrics_blind (py_int s).
Proof. unfold py_int. destruct (int s); [apply blind_ret | apply blind_raise]. Qed.

Lemma blind_py_int_of_number (n : Q) : metrics_blind (py_int_of_number n).
Proof.
  unfold py_int_of_number. destruct (to_integer n); [apply blind_ret | apply blind_raise].
Qed.

Lemma blind_py_mul (n : Z) (x : spec_float) : metrics_blind (py_mul n x).
Proof.
  unfold py_mul. destruct (finite (to_float n)); [apply blind_ret | apply blind_raise].
Qed.

Lemma blind_for_each {A} (l : list A) (body : A -> M unit) :
  (forall x, metrics_blind (body x)) -> metrics_blind (for_each l body).
Proof.
  intros Hbody. induction l as [|x l IH]; cbn [for_each];
    [apply blind_ret | apply blind_bind; auto].
Qed.

Lemma blind_put_metric (metric_name : string) (value : Z) :
  metrics_blind (MetricsCollector._put_metric metric_name value).
Proof.
  intros e1 e2 w1 w2 _ Hw. rewrite !put_metric_run. cbn [fst snd]. split; [reflexivity|].
  pose proof (after_metric_same_data metric_name value e1 w1).
  pose proof (after_metric_same_data metric_name value e2 w2).
  unfold same_data in *. intuition congruence.
Qed.

(** The calls to the other services read the faults and the data, and none
    of them reads the metrics. *)
Ltac blind_service :=
  intros e1 e2 w1 w2 (Hd & Hs & Hu & Hc & Hcost & Hid & Hnow) (Ht & Hb & Hq & Hp);
  unfold service_call;
  rewrite ?Hd, ?Hs, ?Hu, ?Hc;
  cbn [tenant_table billing_table queue user_pool with_calls];
  rewrite ?Ht, ?Hb, ?Hq, ?Hp;
  repeat match goal with
         | |- context [match ?x with _ => _ end] => destruct x
         end;
  cbn; unfold same_data; cbn; rewrite ?Ht, ?Hb, ?Hq, ?Hp; auto.

Lemma blind_get_item (T I : string) : metrics_blind (DynamoDB.get_item T I).
Proof. unfold DynamoDB.get_item. blind_service. Qed.

Lemma blind_put_item (item : Item) : metrics_blind (DynamoDB.put_item item).
Proof. unfold DynamoDB.put_item. blind_service. Qed.

Lemma blind_get_usage_count (T : string) : metrics_blind (DynamoDB.get_usage_count T).
Proof. unfold DynamoDB.get_usage_count. blind_service. Qed.

Lemma blind_update_item (T val : string) : metrics_blind (DynamoDB.update_item T val).
Proof. unfold DynamoDB.update_item. blind_service. Qed.

Lemma blind_send_message (T : string) (usage : Z) : metrics_blind (SQS.send_message T usage).
Proof. unfold SQS.send_message. blind_service. Qed.

Lemma blind_sign_up (email password T : string) :
  metrics_blind (Cognito.sign_up email password T).
Proof. unfold Cognito.sign_up. blind_service. Qed.

Lemma blind_admin_confirm_sign_up (email : string) :
  metrics_blind (Cognito.admin_confirm_sign_up email).
Proof. unfold Cognito.admin_confirm_sign_up. blind_service. Qed.

Lemma blind_asks {A} (f : Env -> A) :
  (forall e1 e2, same_services e1 e2 -> f e1 = f e2) -> metrics_blind (asks f).
Proof.
  intros Hf e1 e2 w1 w2 He Hw. unfold asks. cbn. split; [|assumption].
  f_equal. now apply Hf.
Qed.

Lemma blind_uuid4 : metrics_blind (asks uuid4).
Proof. apply blind_asks. intros e1 e2 H. apply H. Qed.

Lemma blind_now : metrics_blind (asks now).
Proof. apply blind_asks. intros e1 e2 H. apply H. Qed.

Lemma blind_cost_per_unit : metrics_blind BillingService.cost_per_unit.
Proof.
  apply blind_asks. intros e1 e2 (_ & _ & _ & _ & H & _). now rewrite H.
Qed.

Create HintDb blind.
#[local] Hint Resolve blind_ret blind_raise blind_getitem blind_resolve blind_py_int
  blind_py_int_of_number blind_py_mul
  blind_put_metric blind_get_item blind_put_item blind_get_usage_count
  blind_update_item blind_send_message blind_sign_up blind_admin_confirm_sign_up
  blind_uuid4 blind_now blind_cost_per_unit : blind.

(** Python code put together from blind expressions is blind. *)
Ltac blind :=
  unfold MetricsCollector.record_error, MetricsCollector.record_data_access_success,
    MetricsCollector.record_data_access_failure, MetricsCollector.record_billing_update,
    MetricsCollector.record_onboarding_success;
  repeat first
    [ solve [auto with blind]
    | apply blind_try_except
    | apply blind_bind
    | apply blind_for_each
    | match goal with
      | |- forall _, _ => intro
      | |- metrics_blind (if ?b then _ else _) => destruct b
      | |- metrics_blind (match ?x with _ => _ end) => destruct x
      end ].

Lemma blind_get_tenant_data (T I : string) (user : Claims) :
  metrics_blind (TenantService.get_tenant_data T I user).
Proof. unfold TenantService.get_tenant_data. blind. Qed.

Lemma blind_store_tenant_data (T I P : string) (user : Claims) :
  metrics_blind (TenantService.store_tenant_data T I P user).
Proof. unfold TenantService.store_tenant_data. blind. Qed.

Lemma blind_track_usage (T : string) (image : StreamImage) :
  metrics_blind (BillingService.track_usage T image).
Proof. unfold BillingService.track_usage. blind. Qed.

Lemma blind_get_billing_summary (T : string) :
  metrics_blind (BillingService.get_billing_summary T).
Proof. unfold BillingService.get_billing_summary. blind. Qed.

Lemma blind_register_tenant (tenant_name email password : string) :
  metrics_blind (OnboardingService.register_tenant tenant_name email password).
Proof. unfold OnboardingService.register_tenant. blind. Qed.

#[local] Hint Resolve blind_get_tenant_data blind_store_tenant_data blind_track_usage
  blind_get_billing_summary blind_register_tenant : blind.

Lemma blind_tenant_handler (event : Event) :
  metrics_blind (TenantHandler.lambda_handler event).
Proof. unfold TenantHandler.lambda_handler. blind. Qed.

Lemma blind_billing_handler (event : Event) :
  metrics_blind (BillingHandler.lambda_handler event).
Proof.
  unfold BillingHandler.lambda_handler, BillingHandler.process_record. blind.
Qed.

Lemma blind_onboarding_handler (event : Event) :
  metrics_blind (OnboardingHandler.lambda_handler event).
Proof. unfold OnboardingHandler.lambda_handler. blind. Qed.

Lemma same_services_with_cloudwatch_fault (fault : option string) (env : Env) :
  same_services (with_cloudwatch_fault fault env) env.
Proof. unfold same_services. cbn. auto 10. Qed.

Lemma blind_unaffected {A} (m : M A) : metrics_blind m -> unaffected_by_cloudwatch m.
Proof.
  intros Hm fault env w.
  destruct (Hm (with_cloudwatch_fault fault env) env w w
              (same_services_with_cloudwatch_fault fault env) (same_data_refl w))
    as [Hr Hw].
  split; [assumption|]. unfold same_data in *. intuition congruence.
Qed.

(** C10. Metrics never fail an operation.  [_put_metric] returns normally in
    every environment and world and changes no data; and for every service
    method and every handler, a fault of CloudWatch changes neither what the
    operation returns or raises nor the data it leaves behind. *)
Theorem metrics_never_fail_an_operation :
  (forall metric_name value env w,
      fst (MetricsCollector._put_metric metric_name value env w) = Ok tt /\
      same_data w (snd (MetricsCollector._put_metric metric_name value env w))) /\
  (forall T I user, unaffected_by_cloudwatch (TenantService.get_tenant_data T I user)) /\
  (forall T I P user, unaffected_by_cloudwatch (TenantService.store_tenant_data T I P user)) /\
  (forall T image, unaffected_by_cloudwatch (BillingService.track_usage T image)) /\
  (forall T, unaffected_by_cloudwatch (BillingService.get_billing_summary T)) /\
  (forall tenant_name email password,
      unaffected_by_cloudwatch
        (OnboardingService.register_tenant tenant_name email password)) /\
  (forall event, unaffected_by_cloudwatch (TenantHandler.lambda_handler event)) /\
  (forall event, unaffected_by_cloudwatch (BillingHandler.lambda_handler event)) /\
  (forall event, unaffected_by_cloudwatch (OnboardingHandler.lambda_handler event)).
Proof.
  repeat apply conj.
  - intros. rewrite put_metric_run. cbn [fst snd].
    split; [reflexivity | apply after_metric_same_data].
  - intros. apply blind_unaffected, blind_get_tenant_data.
  - intros. apply blind_unaffected, blind_store_tenant_data.
  - intros. apply blind_unaffected, blind_track_usage.
  - intros. apply blind_unaffected, blind_get_billing_summary.
  - intros. apply blind_unaffected, blind_register_tenant.
  - intros. apply blind_unaffected, blind_tenant_handler.
  - intros. apply blind_unaffected, blind_billing_handler.
  - intros. apply blind_unaffected, blind_onboarding_handler.
Qed.

(** ** The cases of the test suite *)

(** [tests/test_tenant_service.py]: an item put in the table is read back by
    a caller of its tenant, and refused to a caller of another one. *)
Example test_get_tenant_data_valid :
  fst (TenantService.get_tenant_data "tenant-b" "item1"
         {| claims_tenant_id := Some "tenant-b"; claims_sub := Some "user1" |}
         healthy sample_world)
  = Ok (Some {| item_tenant_id := "tenant-b"; item_item_id := "item1";
                item_data := "{}" |}).
Proof. reflexivity. Qed.

Example test_get_tenant_data_unauthorized :
  fst (TenantService.get_tenant_data "tenant-b" "item1"
         {| claims_tenant_id := Some "tenant-a"; claims_sub := Some "user1" |}
         healthy sample_world)
  = Raise (ValueError "Unauthorized tenant access").
Proof. reflexivity. Qed.

(** [tests/test_billing_service.py] tracks ten units on an empty table and
    expects a summary of 10 units and 0.1.  The update of the absent counter
    is refused: [track_usage] raises, and a summary read afterwards has 0
    units and costs 0.0. *)
Example test_track_usage :
  fst (BillingService.track_usage "tenant1"
         {| Keys := None; NewImage_usage_N := Some "10" |} healthy empty_world)
  = Raise (ClientError DynamoDB.absent_attribute) /\
  fst (BillingService.get_billing_summary "tenant1" healthy
         (snd (BillingService.track_usage "tenant1"
                 {| Keys := None; NewImage_usage_N := Some "10" |}
                 healthy empty_world)))
  = Ok {| summary_tenant_id := "tenant1"; usage_count := 0;
          total_cost := S754_zero false |}.
Proof. split; reflexivity. Qed.

(** The same on a table where the tenant has a counter of 0: 10 units and
    0.1. *)
Example test_track_usage_on_a_counter :
  fst (BillingService.get_billing_summary "tenant1" healthy
         (snd (BillingService.track_usage "tenant1"
                 {| Keys := None; NewImage_usage_N := Some "10" |}
                 healthy (with_billing_table {[ "tenant1" := 0%Q ]} empty_world))))
  = Ok {| summary_tenant_id := "tenant1"; usage_count := 10;
          total_cost := round_to_double false 10 100 |}.
Proof. reflexivity. Qed.

(** A CloudWatch that refuses every metric changes no response. *)
Example billing_read_with_failing_metrics :
  fst (BillingHandler.lambda_handler
         (get_billing_request "t1" {| claims_tenant_id := Some "t1"; claims_sub := None |})
         (with_cloudwatch_fault (Some "ThrottlingException") healthy) sample_world)
  = Ok {| statusCode := 200;
          response_body :=
            SummaryBody {| summary_tenant_id := "t1"; usage_count := 50;
                           total_cost := round_to_double false 50 100 |} |}.
Proof. reflexivity. Qed.

(** * Further properties of the services and handlers *)

Lemma after_metric_metric (metric_name name : string) (value : Z) env w :
  metric name (after_metric metric_name value env w)
  = match cloudwatch_fault env with
    | Some _ => metric name w
    | None => if decide (metric_name = name) then metric name w + value else metric name w
    end.
Proof.
  unfold metric. rewrite after_metric_metrics.
  destruct (cloudwatch_fault env); [reflexivity|].
  rewrite lookup_insert. destruct (decide (metric_name = name)) as [->|]; reflexivity.
Qed.

Lemma after_metric_other (metric_name name : string) (value : Z) env w :
  metric_name <> name ->
  metric name (after_metric metric_name value env w) = metric name w.
Proof.
  intros Hne. rewrite after_metric_metric.
  destruct (cloudwatch_fault env); [reflexivity|].
  destruct (decide (metric_name = name)); [contradiction | reflexivity].
Qed.

Lemma after_metric_this (metric_name : string) (value : Z) env w :
  cloudwatch_fault env = None ->
  metric metric_name (after_metric metric_name value env w) = metric metric_name w + value.
Proof.
  intros Hc. rewrite after_metric_metric, Hc.
  destruct (decide (metric_name = metric_name)); [reflexivity | contradiction].
Qed.

Lemma errors_after_metric (metric_name : string) (value : Z) env w :
  metric_name <> "Errors" -> errors (after_metric metric_name value env w) = errors w.
Proof. apply after_metric_other. Qed.

Lemma same_data_with_calls (c : list Call) (w : World) : same_data w (with_calls c w).
Proof. unfold same_data. cbn. auto. Qed.

(** ** Reading tenant data *)

Lemma get_tenant_data_authorized (T I : string) (user : Claims) env w :
  claims_tenant_id user = Some T ->
  dynamodb_fault env = None ->
  TenantService.get_tenant_data T I user env w
  = (Ok (tenant_table w !! (T, I)),
     after_metric
       (match tenant_table w !! (T, I) with
        | Some _ => "DataAccessSuccess"
        | None => "DataAccessFailure"
        end) 1
       env (with_calls (DynamoGetItem DynamoDB.tenant_table_name :: calls w) w)).
Proof.
  intros Hu Hf. apply tenant_mismatch_eq in Hu.
  unfold TenantService.get_tenant_data, DynamoDB.get_item, service_call. exec.
  rewrite Hu, Hf. exec. cbn [tenant_table with_calls].
  destruct (tenant_table w !! (T, I)); now exec.
Qed.

(** X1. A caller of tenant [T] reads an item that is stored, with DynamoDB
    working: [get_tenant_data] returns the item after one [get_item] and one
    [DataAccessSuccess] metric, the data and the error metric are unchanged,
    and the handler answers the GET request with 200 and the item. *)
Theorem get_tenant_data_found (T I : string) (user : Claims) (item : Item) env w :
  claims_tenant_id user = Some T ->
  dynamodb_fault env = None ->
  tenant_table w !! (T, I) = Some item ->
  exists w',
    TenantService.get_tenant_data T I user env w = (Ok (Some item), w') /\
    same_data w w' /\
    calls w' = CloudWatchPutMetricData "DataAccessSuccess"
               :: DynamoGetItem DynamoDB.tenant_table_name :: calls w /\
    errors w' = errors w /\
    (cloudwatch_fault env = None ->
     metric "DataAccessSuccess" w' = metric "DataAccessSuccess" w + 1) /\
    TenantHandler.lambda_handler (get_data_request T I user) env w
    = (Ok {| statusCode := 200; response_body := ItemBody item |}, w').
Proof.
  intros Hu Hf Hitem.
  pose proof (get_tenant_data_authorized T I user env w Hu Hf) as Hrun.
  rewrite Hitem in Hrun. eexists. split; [exact Hrun|].
  split; [apply same_data_after_metric, same_data_with_calls|].
  split; [now rewrite after_metric_calls|].
  split; [now rewrite errors_after_metric by discriminate|].
  split; [intros Hc; now rewrite after_metric_this|].
  unfold TenantHandler.lambda_handler, get_data_request, api_event. exec.
  change (String.eqb "GET" "GET"
          && contains "/tenants/{tenant_id}/data/{item_id}"
               "/tenants/{tenant_id}/data/{item_id}") with true.
  exec. rewrite Hrun. now exec.
Qed.

Lemma get_tenant_data_found_witness :
  exists w',
    TenantService.get_tenant_data "tenant-b" "item1"
      {| claims_tenant_id := Some "tenant-b"; claims_sub := None |} healthy sample_world
    = (Ok (Some {| item_tenant_id := "tenant-b"; item_item_id := "item1";
                   item_data := "{}" |}), w') /\
    same_data sample_world w'.
Proof.
  destruct (get_tenant_data_found "tenant-b" "item1"
              {| claims_tenant_id := Some "tenant-b"; claims_sub := None |}
              {| item_tenant_id := "tenant-b"; item_item_id := "item1"; item_data := "{}" |}
              healthy sample_world eq_refl eq_refl eq_refl)
    as (w' & Hrun & Hsame & _).
  exists w'. split; assumption.
Defined.

(** X2. A caller of tenant [T] reads an item that is not stored: this is no
    error.  [get_tenant_data] returns [None] after one [get_item] and one
    [DataAccessFailure] metric, the error metric is unchanged, and the
    handler answers the GET request with 404 and "Item not found". *)
Theorem get_tenant_data_not_found (T I : string) (user : Claims) env w :
  claims_tenant_id user = Some T ->
  dynamodb_fault env = None ->
  tenant_table w !! (T, I) = None ->
  exists w',
    TenantService.get_tenant_data T I user env w = (Ok None, w') /\
    same_data w w' /\
    calls w' = CloudWatchPutMetricData "DataAccessFailure"
               :: DynamoGetItem DynamoDB.tenant_table_name :: calls w /\
    errors w' = errors w /\
    (cloudwatch_fault env = None ->
     metric "DataAccessFailure" w' = metric "DataAccessFailure" w + 1) /\
    TenantHandler.lambda_handler (get_data_request T I user) env w
    = (Ok {| statusCode := 404; response_body := ErrorBody "Item not found" |}, w').
Proof.
  intros Hu Hf Hitem.
  pose proof (get_tenant_data_authorized T I user env w Hu Hf) as Hrun.
  rewrite Hitem in Hrun. eexists. split; [exact Hrun|].
  split; [apply same_data_after_metric, same_data_with_calls|].
  split; [now rewrite after_metric_calls|].
  split; [now rewrite errors_after_metric by discriminate|].
  split; [intros Hc; now rewrite after_metric_this|].
  unfold TenantHandler.lambda_handler, get_data_request, api_event. exec.
  change (String.eqb "GET" "GET"
          && contains "/tenants/{tenant_id}/data/{item_id}"
               "/tenants/{tenant_id}/data/{item_id}") with true.
  exec. rewrite Hrun. now exec.
Qed.

Lemma get_tenant_data_not_found_witness :
  exists w',
    TenantService.get_tenant_data "tenant-b" "item2"
      {| claims_tenant_id := Some "tenant-b"; claims_sub := None |} healthy sample_world
    = (Ok None, w') /\
    same_data sample_world w'.
Proof.
  destruct (get_tenant_data_not_found "tenant-b" "item2"
              {| claims_tenant_id := Some "tenant-b"; claims_sub := None |}
              healthy sample_world eq_refl eq_refl eq_refl)
    as (w' & Hrun & Hsame & _).
  exists w'. split; assumption.
Defined.

Lemma get_tenant_data_same_data (T I : string) (user : Claims) env w :
  same_data w (snd (TenantService.get_tenant_data T I user env w)).
Proof.
  unfold TenantService.get_tenant_data, DynamoDB.get_item, service_call. exec.
  destruct (tenant_mismatch user T); exec; [cbn [snd]; auto with world|].
  destruct (dynamodb_fault env); exec;
    [cbn [snd]; unfold after_error;
     apply same_data_after_metric, same_data_with_calls|].
  cbn [tenant_table with_calls].
  destruct (tenant_table w !! (T, I)); exec; cbn [snd];
    apply same_data_after_metric, same_data_with_calls.
Qed.

Lemma same_data_after_error env w w' :
  same_data w w' -> same_data w (after_error env w').
Proof. apply same_data_after_metric. Qed.

(** X3. The tenant handler never raises: for every event it returns a
    response, whose status is 200, 400, 404 or 500 (never 201), and it leaves
    the tables, the queue and the user pool as they were. *)
Theorem tenant_handler_answers (event : Event) env w :
  exists r w',
    TenantHandler.lambda_handler event env w = (Ok r, w') /\
    status_in [200; 400; 404; 500] r /\
    same_data w w'.
Proof.
  unfold TenantHandler.lambda_handler, status_in. exec.
  destruct (httpMethod event) as [m|]; exec;
    [|eexists _, _; split; [reflexivity|]; cbn; auto 10 using same_data_after_error with world].
  destruct (path event) as [p|]; exec;
    [|eexists _, _; split; [reflexivity|]; cbn; auto 10 using same_data_after_error with world].
  destruct (String.eqb m "GET" && contains "/tenants/{tenant_id}/data/{item_id}" p).
  - destruct (pathParameters_tenant_id event) as [T|]; exec;
      [|eexists _, _; split; [reflexivity|]; cbn; auto 10 using same_data_after_error with world].
    destruct (pathParameters_item_id event) as [I|]; exec;
      [|eexists _, _; split; [reflexivity|]; cbn; auto 10 using same_data_after_error with world].
    pose proof (get_tenant_data_same_data T I (claims event) env w) as Hsame.
    destruct (TenantService.get_tenant_data T I (claims event) env w) as [[[item|]|e] w1];
      exec; cbn [snd] in Hsame;
      eexists _, _; (split; [reflexivity|]); cbn;
      auto 10 using same_data_after_error with world.
  - destruct (String.eqb m "POST" && contains "/tenants/{tenant_id}/data" p); exec;
      [|eexists _, _; split; [reflexivity|]; cbn; auto 10 with world].
    destruct (pathParameters_tenant_id event) as [T|]; exec;
      [|eexists _, _; split; [reflexivity|]; cbn; auto 10 using same_data_after_error with world].
    destruct (body event) as [b|]; exec;
      [|eexists _, _; split; [reflexivity|]; cbn; auto 10 using same_data_after_error with world].
    destruct (body_item_id b) as [I|]; exec;
      [|eexists _, _; split; [reflexivity|]; cbn; auto 10 using same_data_after_error with world].
    destruct (body_data b) as [P|]; exec;
      [|eexists _, _; split; [reflexivity|]; cbn; auto 10 using same_data_after_error with world].
    rewrite store_tenant_data_raises. exec.
    eexists _, _; (split; [reflexivity|]); cbn.
    split; [auto 10|]. apply same_data_after_error. unfold after_error. auto with world.
Qed.

(** ** Requests no handler serves *)

Lemma eqb_ne (m s : string) : m <> s -> String.eqb m s = false.
Proof. intros H. now apply String.eqb_neq. Qed.

(** X4. A request whose method is neither GET nor POST is answered with 400
    and "Invalid request" by the three handlers, with no call to any service
    and no metric (the tenant and billing handlers read the path first, the
    onboarding handler does not). *)
Theorem unsupported_method_is_refused (event : Event) (m : string) env w :
  httpMethod event = Some m -> m <> "GET" -> m <> "POST" ->
  (path event <> None ->
   TenantHandler.lambda_handler event env w
   = (Ok {| statusCode := 400; response_body := ErrorBody "Invalid request" |}, w)) /\
  (Records event = None -> path event <> None ->
   BillingHandler.lambda_handler event env w
   = (Ok {| statusCode := 400; response_body := ErrorBody "Invalid request" |}, w)) /\
  OnboardingHandler.lambda_handler event env w
  = (Ok {| statusCode := 400; response_body := ErrorBody "Invalid request" |}, w).
Proof.
  intros Hm Hget Hpost.
  apply eqb_ne in Hget. apply eqb_ne in Hpost.
  repeat apply conj.
  - intros Hp. destruct (path event) as [p|] eqn:E; [|contradiction].
    unfold TenantHandler.lambda_handler. rewrite Hm, E. exec.
    now rewrite Hget, Hpost.
  - intros HR Hp. destruct (path event) as [p|] eqn:E; [|contradiction].
    unfold BillingHandler.lambda_handler. rewrite HR, Hm, E. exec.
    now rewrite Hget.
  - unfold OnboardingHandler.lambda_handler. rewrite Hm. exec.
    rewrite Hpost. now exec.
Qed.

Lemma unsupported_method_is_refused_witness :
  OnboardingHandler.lambda_handler
    (api_event "DELETE" "/onboarding" no_claims None None None) healthy sample_world
  = (Ok {| statusCode := 400; response_body := ErrorBody "Invalid request" |}, sample_world).
Proof.
  apply (unsupported_method_is_refused
           (api_event "DELETE" "/onboarding" no_claims None None None) "DELETE"
           healthy sample_world); [reflexivity | discriminate | discriminate].
Defined.

(** X5. An API request without ["httpMethod"] is answered by the three
    handlers with 500 and the text of the [KeyError], ['httpMethod']; the
    only effect is one publication of the error metric. *)
Theorem missing_method_is_a_server_error (event : Event) env w :
  httpMethod event = None ->
  TenantHandler.lambda_handler event env w
  = (Ok {| statusCode := 500; response_body := ErrorBody "'httpMethod'" |},
     after_error env w) /\
  (Records event = None ->
   BillingHandler.lambda_handler event env w
   = (Ok {| statusCode := 500; response_body := ErrorBody "'httpMethod'" |},
      after_error env w)) /\
  OnboardingHandler.lambda_handler event env w
  = (Ok {| statusCode := 500; response_body := ErrorBody "'httpMethod'" |},
     after_error env w) /\
  same_data w (after_error env w) /\
  calls (after_error env w) = CloudWatchPutMetricData "Errors" :: calls w /\
  (cloudwatch_fault env = None -> errors (after_error env w) = errors w + 1).
Proof.
  intros Hm. repeat apply conj.
  - unfold TenantHandler.lambda_handler. rewrite Hm. now exec.
  - intros HR. unfold BillingHandler.lambda_handler. rewrite HR, Hm. now exec.
  - unfold OnboardingHandler.lambda_handler. rewrite Hm. now exec.
  - apply after_metric_same_data.
  - apply after_metric_same_data.
  - apply after_metric_same_data.
  - apply after_metric_same_data.
  - apply after_metric_calls.
  - apply after_error_errors.
Qed.

Lemma missing_method_is_a_server_error_witness :
  TenantHandler.lambda_handler
    {| Records := None; httpMethod := None; path := Some "/tenants"; claims := no_claims;
       pathParameters_tenant_id := None; pathParameters_item_id := None; body := None |}
    healthy sample_world
  = (Ok {| statusCode := 500; response_body := ErrorBody "'httpMethod'" |},
     after_error healthy sample_world).
Proof.
  apply (missing_method_is_a_server_error
           {| Records := None; httpMethod := None; path := Some "/tenants";
              claims := no_claims; pathParameters_tenant_id := None;
              pathParameters_item_id := None; body := None |}
           healthy sample_world eq_refl).
Defined.

(** ** Tracking usage *)

(** X6. A successful [track_usage]: with DynamoDB and SQS working and a
    usage that reads as [d] (0 when the record has no usage attribute), the
    counter of [T] grows by [d], the message [(T, d)] is appended to the
    queue, one [BillingUpdates] metric is published after the update and the
    message, and nothing else changes. *)
Theorem track_usage_counts_and_notifies (T : string) (image : StreamImage) (d : Z) env w :
  dynamodb_fault env = None -> sqs_fault env = None ->
  int (default "0" (NewImage_usage_N image)) = Some d ->
  is_Some (billing_table w !! T) ->
  exists w',
    BillingService.track_usage T image env w = (Ok tt, w') /\
    billing_table w' = <[T := (usage_of w T + inject_Z d)%Q]> (billing_table w) /\
    queue w' = (queue w ++ [(T, d)])%list /\
    tenant_table w' = tenant_table w /\ user_pool w' = user_pool w /\
    calls w' = CloudWatchPutMetricData "BillingUpdates" :: SqsSendMessage
               :: DynamoUpdateItem DynamoDB.billing_table_name :: calls w /\
    errors w' = errors w /\
    (NewImage_usage_N image = None -> d = 0).
Proof.
  intros Hf Hs Hd Hc. unfold BillingService.track_usage. exec.
  rewrite (update_item_run T _ d) by assumption.
  rewrite resolve_json_billing.
  unfold py_int. rewrite Hd. exec.
  unfold SQS.send_message, service_call. rewrite Hs. exec.
  eexists. split; [reflexivity|].
  rewrite errors_after_metric by discriminate.
  autorewrite with world. cbn.
  repeat split. intros Hnone. rewrite Hnone in Hd. now injection Hd as <-.
Qed.

Lemma track_usage_counts_and_notifies_witness :
  exists w',
    BillingService.track_usage "t1" (stream_image "t1" (Some "7")) healthy sample_world
    = (Ok tt, w') /\
    billing_table w'
    = <["t1" := (usage_of sample_world "t1" + inject_Z 7)%Q]> (billing_table sample_world) /\
    queue w' = (queue sample_world ++ [("t1", 7)])%list.
Proof.
  destruct (track_usage_counts_and_notifies "t1" (stream_image "t1" (Some "7")) 7
              healthy sample_world eq_refl eq_refl eq_refl (mk_is_Some _ _ eq_refl))
    as (w' & Hrun & Hb & Hq & _).
  exists w'. auto.
Defined.

(** X7. No rollback when the queue fails: if the counter update succeeds and
    [send_message] raises, [track_usage] raises that error with the counter
    of [T] already increased by [d], no message queued, no [BillingUpdates]
    metric and one error counted. *)
Theorem queue_failure_keeps_the_count (T msg : string) (image : StreamImage) (d : Z) env w :
  dynamodb_fault env = None -> sqs_fault env = Some msg ->
  int (default "0" (NewImage_usage_N image)) = Some d ->
  is_Some (billing_table w !! T) ->
  exists w',
    BillingService.track_usage T image env w = (Raise (ClientError msg), w') /\
    billing_table w' = <[T := (usage_of w T + inject_Z d)%Q]> (billing_table w) /\
    queue w' = queue w /\
    calls w' = CloudWatchPutMetricData "Errors" :: SqsSendMessage
               :: DynamoUpdateItem DynamoDB.billing_table_name :: calls w /\
    metric "BillingUpdates" w' = metric "BillingUpdates" w /\
    (cloudwatch_fault env = None -> errors w' = errors w + 1).
Proof.
  intros Hf Hs Hd Hc. unfold BillingService.track_usage. exec.
  rewrite (update_item_run T _ d) by assumption.
  rewrite resolve_json_billing.
  unfold py_int. rewrite Hd. exec.
  unfold SQS.send_message, service_call. rewrite Hs. exec.
  eexists. split; [reflexivity|]. unfold after_error.
  rewrite after_metric_other by discriminate.
  autorewrite with world. cbn.
  repeat split. intros Hcw. now rewrite after_error_errors.
Qed.

Lemma queue_failure_keeps_the_count_witness :
  exists w',
    BillingService.track_usage "t1" (stream_image "t1" (Some "7"))
      {| dynamodb_fault := None; sqs_fault := Some "queue down"; sign_up_fault := None;
         confirm_fault := None; cloudwatch_fault := None;
         config_cost_per_unit := None; uuid4 := uuid4 healthy; now := now healthy |}
      sample_world
    = (Raise (ClientError "queue down"), w') /\
    billing_table w'
    = <["t1" := (usage_of sample_world "t1" + inject_Z 7)%Q]> (billing_table sample_world) /\
    queue w' = queue sample_world.
Proof.
  destruct (queue_failure_keeps_the_count "t1" "queue down"
              (stream_image "t1" (Some "7")) 7
              {| dynamodb_fault := None; sqs_fault := Some "queue down";
                 sign_up_fault := None; confirm_fault := None; cloudwatch_fault := None;
                 config_cost_per_unit := None;
                 uuid4 := uuid4 healthy; now := now healthy |}
              sample_world eq_refl eq_refl eq_refl (mk_is_Some _ _ eq_refl))
    as (w' & Hrun & Hb & Hq & _).
  exists w'. auto.
Defined.

(** A record that is not keyed to [T] leaves the counter of [T] alone. *)
Lemma process_record_other_tenant (T : string) (record : StreamRecord) env w :
  ~ keyed_to T record ->
  billing_table (snd (BillingHandler.process_record record env w)) !! T
  = billing_table w !! T.
Proof.
  intros Hkey. unfold BillingHandler.process_record. exec.
  destruct (eventName record) as [name|]; exec; [|reflexivity].
  destruct (bool_decide (name ∈ ["INSERT"; "MODIFY"])); [|reflexivity].
  destruct (dynamodb record) as [image|] eqn:Himage; exec; [|reflexivity].
  destruct (Keys image) as [keys|] eqn:Hkeys; exec; [|reflexivity].
  destruct (Keys_tenant_id keys) as [attribute|] eqn:Hattribute; exec; [|reflexivity].
  destruct (attribute_S attribute) as [T'|] eqn:HT'; exec; [|reflexivity].
  assert (Hne : T' <> T).
  { intros ->. apply Hkey. exists image. split; [assumption|].
    unfold tenant_key. now rewrite Hkeys, Hattribute. }
  destruct (track_usage_counters T' image env w) as [H | (c & d & _ & _ & H)]; rewrite H;
    [reflexivity | now rewrite lookup_insert_ne].
Qed.

Lemma for_each_other_tenant (T : string) (records : list StreamRecord) env :
  Forall (fun record => ~ keyed_to T record) records ->
  forall w,
    billing_table (snd (for_each records BillingHandler.process_record env w)) !! T
    = billing_table w !! T.
Proof.
  induction 1 as [|record records Hkey _ IH]; intros w; [reflexivity|].
  cbn [for_each]. unfold bind.
  pose proof (process_record_other_tenant T record env w Hkey) as H1.
  destruct (BillingHandler.process_record record env w) as [[[]|e] w1]; cbn [snd] in *.
  - now rewrite IH.
  - assumption.
Qed.

(** X8. Counters are isolated by key: a batch in which no record is keyed to
    tenant [T] leaves the counter of [T] exactly as it was, whatever the
    records hold and whichever services fail. *)
Theorem other_tenants_events_leave_the_counter (T : string)
    (records : list StreamRecord) env w :
  Forall (fun record => ~ keyed_to T record) records ->
  billing_table (snd (BillingHandler.lambda_handler (stream_event records) env w)) !! T
  = billing_table w !! T.
Proof.
  intros Hkeys. rewrite stream_handler_counters.
  now apply for_each_other_tenant.
Qed.

Lemma other_tenants_events_leave_the_counter_witness :
  billing_table
    (snd (BillingHandler.lambda_handler
            (stream_event [change_record "INSERT" "t1" (Some "7");
                           change_record "MODIFY" "t2" (Some "-3")])
            healthy sample_world)) !! "tenant-b"
  = billing_table sample_world !! "tenant-b".
Proof.
  apply (other_tenants_events_leave_the_counter "tenant-b").
  repeat constructor; intros (image & [= <-] & [=]).
Defined.

(** ** Billing reads *)

(** A number reads as the integer [n] when it is equal to [n]. *)
Lemma to_integer_spec (q : Q) (n : Z) :
  to_integer q = Some n <-> (q == inject_Z n)%Q.
Proof.
  destruct q as [a d]. unfold to_integer, Qeq. cbn [Qnum Qden inject_Z].
  rewrite Z.mul_1_r. split.
  - destruct (Z.eqb_spec (a mod Zpos d) 0) as [Hm|]; [|discriminate].
    intros [= <-]. rewrite (Z.div_mod a (Zpos d)) at 1 by lia. lia.
  - intros ->. rewrite Z.mod_mul by lia. cbn [Z.eqb]. now rewrite Z.div_mul by lia.
Qed.

Lemma billing_get_run (T : string) (n : Z) (user : Claims) env w :
  claims_tenant_id user = Some T ->
  dynamodb_fault env = None ->
  to_integer (usage_of w T) = Some n ->
  finite (to_float n) = true ->
  BillingHandler.lambda_handler (get_billing_request T user) env w
  = (Ok {| statusCode := 200;
           response_body :=
             SummaryBody
               {| summary_tenant_id := T;
                  usage_count := n;
                  total_cost :=
                    round2 (SFmul prec emax (to_float n)
                              (default float_0_01 (config_cost_per_unit env))) |} |},
     with_calls (DynamoGetItem DynamoDB.billing_table_name :: calls w) w).
Proof.
  intros Hu Hf Hn Hfinite. apply tenant_mismatch_eq in Hu.
  unfold BillingHandler.lambda_handler, get_billing_request, api_event.
  exec.
  change (String.eqb "GET" "GET"
          && contains "/billing/{tenant_id}" "/billing/{tenant_id}") with true.
  exec. rewrite Hu. rewrite (get_billing_summary_run T n) by assumption. now exec.
Qed.

(** X9. An authorised billing GET with DynamoDB working, for a tenant whose
    counter reads as the integer [n] (0 when absent) that a float can hold,
    is answered with 200 and the summary of [n], its cost being
    [round(n * cost_per_unit, 2)] on floats, after exactly one read of the
    billing table and without any metric. *)
Theorem billing_get_answers_the_summary (T : string) (n : Z) (user : Claims) env w :
  claims_tenant_id user = Some T ->
  dynamodb_fault env = None ->
  to_integer (usage_of w T) = Some n ->
  finite (to_float n) = true ->
  BillingHandler.lambda_handler (get_billing_request T user) env w
  = (Ok {| statusCode := 200;
           response_body :=
             SummaryBody
               {| summary_tenant_id := T;
                  usage_count := n;
                  total_cost :=
                    round2 (SFmul prec emax (to_float n)
                              (default float_0_01 (config_cost_per_unit env))) |} |},
     with_calls (DynamoGetItem DynamoDB.billing_table_name :: calls w) w).
Proof. apply billing_get_run. Qed.

Lemma billing_get_answers_the_summary_witness :
  BillingHandler.lambda_handler
    (get_billing_request "t1" {| claims_tenant_id := Some "t1"; claims_sub := None |})
    healthy sample_world
  = (Ok {| statusCode := 200;
           response_body :=
             SummaryBody
               {| summary_tenant_id := "t1"; usage_count := 50;
                  total_cost :=
                    round2 (SFmul prec emax (to_float 50)
                              (default float_0_01 (config_cost_per_unit healthy))) |} |},
     with_calls (DynamoGetItem DynamoDB.billing_table_name :: calls sample_world)
       sample_world).
Proof.
  apply (billing_get_answers_the_summary "t1" 50
           {| claims_tenant_id := Some "t1"; claims_sub := None |}
           healthy sample_world eq_refl eq_refl eq_refl eq_refl).
Defined.

(** X10. Tracked usage is billed: when tenant [T] has a counter that reads
    as the integer [n], after a batch of Insert and Modify records of [T]
    carrying the integer deltas [ds] has been processed, the billing GET of
    [T] reports [n] plus the sum of [ds], and its cost on floats. *)
Theorem tracked_usage_is_billed (T : string) (records : list StreamRecord) (ds : list Z)
    (n : Z) (user : Claims) env w :
  dynamodb_fault env = None -> sqs_fault env = None ->
  is_Some (billing_table w !! T) ->
  to_integer (usage_of w T) = Some n ->
  finite (to_float (n + sum ds)) = true ->
  Forall2 (carries T) records ds ->
  claims_tenant_id user = Some T ->
  exists w1,
    BillingHandler.lambda_handler (stream_event records) env w
    = (Ok {| statusCode := 200; response_body := MessageBody "Usage processed" |}, w1) /\
    fst (BillingHandler.lambda_handler (get_billing_request T user) env w1)
    = Ok {| statusCode := 200;
            response_body :=
              SummaryBody
                {| summary_tenant_id := T;
                   usage_count := n + sum ds;
                   total_cost :=
                     round2 (SFmul prec emax (to_float (n + sum ds))
                               (default float_0_01 (config_cost_per_unit env))) |} |}.
Proof.
  intros Hf Hs Hc Hn Hfinite HF Hu.
  destruct (for_each_carries T env Hf Hs records ds HF w Hc) as (w1 & Hrun & Husage & _).
  exists w1. split.
  - unfold BillingHandler.lambda_handler, stream_event. exec. now rewrite Hrun.
  - assert (Hn1 : to_integer (usage_of w1 T) = Some (n + sum ds)).
    { apply to_integer_spec. apply to_integer_spec in Hn.
      now rewrite Husage, Hn, inject_Z_plus. }
    now rewrite (billing_get_run T (n + sum ds)) by assumption.
Qed.

Lemma tracked_usage_is_billed_witness :
  exists w1,
    BillingHandler.lambda_handler
      (stream_event [change_record "INSERT" "t1" (Some "7");
                     change_record "MODIFY" "t1" None])
      healthy sample_world
    = (Ok {| statusCode := 200; response_body := MessageBody "Usage processed" |}, w1) /\
    fst (BillingHandler.lambda_handler
           (get_billing_request "t1" {| claims_tenant_id := Some "t1"; claims_sub := None |})
           healthy w1)
    = Ok {| statusCode := 200;
            response_body :=
              SummaryBody
                {| summary_tenant_id := "t1";
                   usage_count := 50 + sum [7; 0];
                   total_cost :=
                     round2 (SFmul prec emax (to_float (50 + sum [7; 0]))
                               (default float_0_01 (config_cost_per_unit healthy))) |} |}.
Proof.
  apply (tracked_usage_is_billed "t1"
           [change_record "INSERT" "t1" (Some "7"); change_record "MODIFY" "t1" None]
           [7; 0] 50 {| claims_tenant_id := Some "t1"; claims_sub := None |}
           healthy sample_world);
    [reflexivity | reflexivity | eexists; reflexivity | reflexivity | reflexivity
    | | reflexivity].
  repeat constructor; eexists; repeat split; reflexivity.
Defined.

(** ** The billing handler as a whole *)

Lemma track_usage_keeps_tenant_data (T : string) (image : StreamImage) env w :
  tenant_table (snd (BillingService.track_usage T image env w)) = tenant_table w /\
  user_pool (snd (BillingService.track_usage T image env w)) = user_pool w.
Proof.
  unfold BillingService.track_usage, DynamoDB.update_item, SQS.send_message,
    service_call, py_int.
  exec.
  destruct (dynamodb_fault env); exec; [now settle|].
  destruct (number _) as [q|]; exec; [|now settle].
  cbn [billing_table with_calls].
  destruct (billing_table w !! T) as [c|]; exec; [|now settle].
  rewrite resolve_json_billing. exec.
  destruct (int _) as [d|]; exec; [|now settle].
  destruct (sqs_fault env); exec; now settle.
Qed.

Lemma process_record_keeps_tenant_data (record : StreamRecord) env w :
  tenant_table (snd (BillingHandler.process_record record env w)) = tenant_table w /\
  user_pool (snd (BillingHandler.process_record record env w)) = user_pool w.
Proof.
  unfold BillingHandler.process_record. exec.
  destruct (eventName record) as [name|]; exec; [|now split].
  destruct (bool_decide (name ∈ ["INSERT"; "MODIFY"])); [|now split].
  destruct (dynamodb record) as [image|]; exec; [|now split].
  destruct (Keys image) as [keys|]; exec; [|now split].
  destruct (Keys_tenant_id keys) as [attribute|]; exec; [|now split].
  destruct (attribute_S attribute) as [T|]; exec; [|now split].
  apply track_usage_keeps_tenant_data.
Qed.

Lemma for_each_keeps_tenant_data (records : list StreamRecord) env w :
  tenant_table (snd (for_each records BillingHandler.process_record env w))
  = tenant_table w /\
  user_pool (snd (for_each records BillingHandler.process_record env w)) = user_pool w.
Proof.
  revert w. induction records as [|record records IH]; intros w; [now split|].
  cbn [for_each]. unfold bind.
  pose proof (process_record_keeps_tenant_data record env w) as [H1 H2].
  destruct (BillingHandler.process_record record env w) as [[[]|e] w1]; cbn [snd] in *.
  - destruct (IH w1) as [H3 H4]. split; congruence.
  - now split.
Qed.

(** X11. The billing handler never raises: for every event it returns a
    response with status 200, 400, 403 or 500; it never changes the tenant
    table or the user pool, and on an API request (no ["Records"]) it changes
    no data at all. *)
Theorem billing_handler_answers (event : Event) env w :
  exists r w',
    BillingHandler.lambda_handler event env w = (Ok r, w') /\
    status_in [200; 400; 403; 500] r /\
    tenant_table w' = tenant_table w /\ user_pool w' = user_pool w /\
    (Records event = None -> same_data w w').
Proof.
  unfold BillingHandler.lambda_handler, status_in. exec.
  destruct (Records event) as [records|].
  - pose proof (for_each_keeps_tenant_data records env w) as [Ht Hp].
    destruct (for_each records BillingHandler.process_record env w) as [[[]|e] w1];
      exec; cbn [snd] in *; eexists _, _; (split; [reflexivity|]); cbn;
      unfold after_error; autorewrite with world;
      (split; [auto 10|]); (split; [assumption|]); (split; [assumption|]); discriminate.
  - destruct (httpMethod event) as [m|]; exec;
      [|eexists _, _; split; [reflexivity|]; cbn; unfold after_error;
        autorewrite with world; auto 10 with world].
    destruct (path event) as [p|]; exec;
      [|eexists _, _; split; [reflexivity|]; cbn; unfold after_error;
        autorewrite with world; auto 10 with world].
    destruct (String.eqb m "GET" && contains "/billing/{tenant_id}" p);
      [|eexists _, _; split; [reflexivity|]; cbn; auto 10 with world].
    destruct (pathParameters_tenant_id event) as [T|]; exec;
      [|eexists _, _; split; [reflexivity|]; cbn; unfold after_error;
        autorewrite with world; auto 10 with world].
    destruct (tenant_mismatch (claims event) T);
      [eexists _, _; split; [reflexivity|]; cbn; auto 10 with world|].
    unfold BillingService.get_billing_summary, DynamoDB.get_usage_count, service_call,
      BillingService.cost_per_unit, py_int_of_number, py_int, py_mul.
    exec.
    destruct (dynamodb_fault env); exec;
      [eexists _, _; (split; [reflexivity|]); cbn; unfold after_error;
       autorewrite with world; cbn;
       auto 10 using same_data_after_metric, same_data_with_calls with world|].
    cbn [billing_table with_calls].
    destruct (billing_table w !! T) as [q|];
      [destruct (to_integer q); exec | change (int "0") with (Some 0); exec];
      try destruct (finite _); exec;
      eexists _, _; (split; [reflexivity|]); cbn; unfold after_error;
      autorewrite with world; cbn;
      auto 10 using same_data_after_metric, same_data_with_calls with world.
Qed.

(** X12. A batch can be split: when the records [first] are processed to the
    end, processing [first ++ second] in one invocation gives the response
    and the world of processing [second] after [first]. *)
Theorem batch_can_be_split (first second : list StreamRecord) env w w1 :
  BillingHandler.lambda_handler (stream_event first) env w
  = (Ok {| statusCode := 200; response_body := MessageBody "Usage processed" |}, w1) ->
  BillingHandler.lambda_handler (stream_event (first ++ second)) env w
  = BillingHandler.lambda_handler (stream_event second) env w1.
Proof.
  unfold BillingHandler.lambda_handler, stream_event. exec.
  rewrite for_each_app.
  destruct (for_each first BillingHandler.process_record env w) as [[[]|e] w'];
    exec; [|discriminate].
  now intros [= ->].
Qed.

Lemma batch_can_be_split_witness :
  BillingHandler.lambda_handler
    (stream_event ([change_record "INSERT" "t1" (Some "7")]
                   ++ [change_record "MODIFY" "t1" (Some "abc")]))
    healthy sample_world
  = BillingHandler.lambda_handler
      (stream_event [change_record "MODIFY" "t1" (Some "abc")]) healthy
      (snd (BillingHandler.lambda_handler
              (stream_event [change_record "INSERT" "t1" (Some "7")])
              healthy sample_world)).
Proof.
  apply (batch_can_be_split [change_record "INSERT" "t1" (Some "7")]
           [change_record "MODIFY" "t1" (Some "abc")] healthy sample_world).
  reflexivity.
Defined.

(** X13. A record without its keys fails the batch: when a record lacks
    ["eventName"], or is an Insert or Modify without ["dynamodb"], without
    ["Keys"] in it, without ["tenant_id"] in the keys or without ["S"] in the
    tenant attribute, the handler answers 500 with the quoted name of that
    key, the records before it stay processed, the records after it are not,
    and the error is counted once. *)
Theorem record_without_keys_fails_the_batch (before after : list StreamRecord)
    (record : StreamRecord) (key : string) env w w1 :
  for_each before BillingHandler.process_record env w = (Ok tt, w1) ->
  lacks record key ->
  BillingHandler.lambda_handler (stream_event (before ++ record :: after)) env w
  = (Ok {| statusCode := 500; response_body := ErrorBody ("'" ++ key ++ "'") |},
     after_error env w1).
Proof.
  intros Hbefore Hcase.
  apply (handler_stops before after record (KeyError key) env w w1 w1 Hbefore).
  unfold BillingHandler.process_record.
  destruct Hcase as [Hn | Hk Hd | image Hk Hd Hkeys | image keys Hk Hd Hkeys Ht
                    | image keys attribute Hk Hd Hkeys Ht Hs];
    [rewrite Hn; now exec|..];
    (destruct Hk as [Hn | Hn]; rewrite Hn; exec;
     [rewrite insert_kind | rewrite modify_kind]; rewrite Hd; exec;
     rewrite ?Hkeys; exec; rewrite ?Ht; exec; rewrite ?Hs; now exec).
Qed.

Lemma record_without_keys_fails_the_batch_witness :
  BillingHandler.lambda_handler
    (stream_event
       ([] ++ {| eventName := Some "INSERT";
                 dynamodb :=
                   Some {| Keys := Some {| Keys_tenant_id := Some {| attribute_S := None |} |};
                           NewImage_usage_N := Some "7" |} |}
           :: [change_record "INSERT" "t1" (Some "7")]))
    healthy sample_world
  = (Ok {| statusCode := 500; response_body := ErrorBody ("'" ++ "S" ++ "'") |},
     after_error healthy sample_world).
Proof.
  apply (record_without_keys_fails_the_batch []
           [change_record "INSERT" "t1" (Some "7")]
           {| eventName := Some "INSERT";
              dynamodb :=
                Some {| Keys := Some {| Keys_tenant_id := Some {| attribute_S := None |} |};
                        NewImage_usage_N := Some "7" |} |}
           "S" healthy sample_world sample_world eq_refl).
  eapply lacks_S; [left|..]; reflexivity.
Defined.

(** A record without ["Keys"] in its image. *)
Example record_without_Keys :
  fst (BillingHandler.lambda_handler
         (stream_event [{| eventName := Some "MODIFY";
                           dynamodb := Some {| Keys := None;
                                               NewImage_usage_N := Some "7" |} |}])
         healthy sample_world)
  = Ok {| statusCode := 500; response_body := ErrorBody "'Keys'" |}.
Proof. reflexivity. Qed.

(** ** Onboarding step by step *)

Lemma confirm_other_users (email : string) (pool : list CognitoUser) :
  Cognito.has_user email pool = false -> map (Cognito.confirm email) pool = pool.
Proof.
  unfold Cognito.has_user, Cognito.confirm.
  induction pool as [|u pool IH]; [reflexivity|].
  cbn [existsb map]. intros H. apply orb_false_iff in H as [Hu Hpool].
  rewrite Hu. f_equal. now apply IH.
Qed.

Lemma confirm_signed_up (email tenant_id : string) (pool : list CognitoUser) :
  Cognito.has_user email pool = false ->
  map (Cognito.confirm email)
    (pool ++ [{| username := email; custom_tenant_id := tenant_id; confirmed := false |}])
  = (pool ++ [{| username := email; custom_tenant_id := tenant_id; confirmed := true |}])%list.
Proof.
  intros H. rewrite map_app, confirm_other_users by assumption.
  cbn [map]. unfold Cognito.confirm at 1. cbn [username custom_tenant_id].
  now rewrite String.eqb_refl.
Qed.

(** X15. When the sign-up fails, because Cognito raises or the email is
    already registered, [register_tenant] raises a client error, makes no
    further call ([admin_confirm_sign_up] and [put_item] are not reached) and
    leaves all data as it was. *)
Theorem sign_up_failure_creates_nothing (tenant_name email password : string) env w :
  sign_up_fault env <> None \/ Cognito.has_user email (user_pool w) = true ->
  exists msg w',
    OnboardingService.register_tenant tenant_name email password env w
    = (Raise (ClientError msg), w') /\
    same_data w w' /\
    calls w' = CloudWatchPutMetricData "Errors" :: CognitoSignUp :: calls w.
Proof.
  intros Hfail.
  unfold OnboardingService.register_tenant, Cognito.sign_up, service_call.
  exec. rewrite resolve_uuid_onboarding. exec.
  destruct (sign_up_fault env) as [msg|]; exec.
  - eexists _, _. split; [reflexivity|]. unfold after_error.
    rewrite after_metric_calls.
    split; [apply same_data_after_metric, same_data_with_calls | reflexivity].
  - destruct Hfail as [Hfail | Hfail]; [contradiction|].
    cbn [user_pool with_calls]. rewrite Hfail. exec.
    eexists _, _. split; [reflexivity|]. unfold after_error.
    rewrite after_metric_calls.
    split; [apply same_data_after_metric, same_data_with_calls | reflexivity].
Qed.

Lemma sign_up_failure_creates_nothing_witness :
  exists msg w',
    OnboardingService.register_tenant "Acme" "admin@acme.com" "pw"
      {| dynamodb_fault := None; sqs_fault := None;
         sign_up_fault := Some "InvalidPasswordException"; confirm_fault := None;
         cloudwatch_fault := None;
         config_cost_per_unit := None; uuid4 := uuid4 healthy; now := now healthy |}
      empty_world
    = (Raise (ClientError msg), w') /\
    same_data empty_world w' /\
    calls w' = CloudWatchPutMetricData "Errors" :: CognitoSignUp :: calls empty_world.
Proof.
  apply (sign_up_failure_creates_nothing "Acme" "admin@acme.com" "pw").
  left. discriminate.
Defined.

(** X16. When the sign-up succeeds and the confirmation raises,
    [register_tenant] raises that error and leaves the new user in the pool,
    unconfirmed, with the generated tenant id; nothing is rolled back and no
    record is written. *)
Theorem confirm_failure_leaves_an_unconfirmed_user
    (tenant_name email password msg : string) env w :
  sign_up_fault env = None ->
  Cognito.has_user email (user_pool w) = false ->
  confirm_fault env = Some msg ->
  exists w',
    OnboardingService.register_tenant tenant_name email password env w
    = (Raise (ClientError msg), w') /\
    user_pool w'
    = (user_pool w ++
       [{| username := email; custom_tenant_id := uuid4 env; confirmed := false |}])%list /\
    tenant_table w' = tenant_table w /\
    calls w' = CloudWatchPutMetricData "Errors" :: CognitoAdminConfirmSignUp
               :: CognitoSignUp :: calls w.
Proof.
  intros Hs Hu Hc.
  unfold OnboardingService.register_tenant, Cognito.sign_up,
    Cognito.admin_confirm_sign_up, service_call.
  exec. rewrite resolve_uuid_onboarding. exec. rewrite Hs. exec.
  cbn [user_pool with_calls]. rewrite Hu. exec.
  cbn [calls with_calls with_user_pool]. rewrite Hc. exec.
  eexists. split; [reflexivity|]. unfold after_error.
  now autorewrite with world.
Qed.

Lemma confirm_failure_leaves_an_unconfirmed_user_witness :
  exists w',
    OnboardingService.register_tenant "Acme" "admin@acme.com" "pw"
      {| dynamodb_fault := None; sqs_fault := None; sign_up_fault := None;
         confirm_fault := Some "NotAuthorizedException";
         cloudwatch_fault := None;
         config_cost_per_unit := None; uuid4 := uuid4 healthy; now := now healthy |}
      empty_world
    = (Raise (ClientError "NotAuthorizedException"), w') /\
    user_pool w'
    = [{| username := "admin@acme.com"; custom_tenant_id := uuid4 healthy;
          confirmed := false |}].
Proof.
  destruct (confirm_failure_leaves_an_unconfirmed_user "Acme" "admin@acme.com" "pw"
              "NotAuthorizedException"
              {| dynamodb_fault := None; sqs_fault := None; sign_up_fault := None;
                 confirm_fault := Some "NotAuthorizedException";
                 cloudwatch_fault := None;
                 config_cost_per_unit := None; uuid4 := uuid4 healthy;
                 now := now healthy |}
              empty_world eq_refl eq_refl eq_refl)
    as (w' & Hrun & Hpool & _).
  exists w'. split; assumption.
Defined.

(** X17. When the sign-up and the confirmation succeed for a new email, the
    user pool ends as it was plus one confirmed user whose [custom:tenant_id]
    is the generated id; the other users are untouched. *)
Theorem confirmed_user_carries_the_tenant_id (tenant_name email password : string) env w :
  sign_up_fault env = None -> confirm_fault env = None ->
  Cognito.has_user email (user_pool w) = false ->
  user_pool (snd (OnboardingService.register_tenant tenant_name email password env w))
  = (user_pool w ++
     [{| username := email; custom_tenant_id := uuid4 env; confirmed := true |}])%list.
Proof.
  intros Hs Hc Hu.
  destruct (register_tenant_run tenant_name email password env w Hs Hc Hu)
    as (w' & Hrun & _ & _ & Hpool).
  rewrite Hrun. cbn [snd]. rewrite Hpool. now apply confirm_signed_up.
Qed.

Lemma confirmed_user_carries_the_tenant_id_witness :
  user_pool
    (snd (OnboardingService.register_tenant "Acme" "admin@acme.com" "pw"
            healthy empty_world))
  = (user_pool empty_world ++
     [{| username := "admin@acme.com"; custom_tenant_id := uuid4 healthy;
         confirmed := true |}])%list.
Proof.
  apply (confirmed_user_carries_the_tenant_id "Acme" "admin@acme.com" "pw"
           healthy empty_world); reflexivity.
Defined.

(** What [register_tenant] leaves behind in every case. *)
Lemma register_tenant_leaves (tenant_name email password : string) env w :
  exists e w',
    OnboardingService.register_tenant tenant_name email password env w = (Raise e, w') /\
    tenant_table w' = tenant_table w /\ billing_table w' = billing_table w /\
    queue w' = queue w /\
    metric "OnboardingSuccess" w' = metric "OnboardingSuccess" w.
Proof.
  unfold OnboardingService.register_tenant, Cognito.sign_up,
    Cognito.admin_confirm_sign_up, service_call.
  exec. rewrite resolve_uuid_onboarding. exec.
  destruct (sign_up_fault env); exec;
    [eexists _, _; split; [reflexivity|]; unfold after_error;
     rewrite after_metric_other by discriminate; now autorewrite with world|].
  cbn [user_pool with_calls].
  destruct (Cognito.has_user email (user_pool w)); exec;
    [eexists _, _; split; [reflexivity|]; unfold after_error;
     rewrite after_metric_other by discriminate; now autorewrite with world|].
  cbn [calls with_calls with_user_pool].
  destruct (confirm_fault env); exec;
    [eexists _, _; split; [reflexivity|]; unfold after_error;
     rewrite after_metric_other by discriminate; now autorewrite with world|].
  cbn [user_pool with_calls with_user_pool].
  rewrite has_user_signed_up. exec. rewrite resolve_json_onboarding. exec.
  eexists _, _; (split; [reflexivity|]); unfold after_error;
    rewrite after_metric_other by discriminate; now autorewrite with world.
Qed.

(** X18. The onboarding handler never raises and never answers 201: every
    event gets a response with status 400 or 500 and an error body, no
    record is written, and the [OnboardingSuccess] metric is never
    published. *)
Theorem onboarding_handler_answers (event : Event) env w :
  exists r w',
    OnboardingHandler.lambda_handler event env w = (Ok r, w') /\
    status_in [400; 500] r /\
    (exists msg, response_body r = ErrorBody msg) /\
    tenant_table w' = tenant_table w /\ billing_table w' = billing_table w /\
    queue w' = queue w /\
    metric "OnboardingSuccess" w' = metric "OnboardingSuccess" w.
Proof.
  unfold OnboardingHandler.lambda_handler, status_in.
  assert (Hfail : forall e, exists r w',
    (MetricsCollector.record_error ;;;
     ret {| statusCode := 500; response_body := ErrorBody (str e) |}) env w = (Ok r, w') /\
    In (statusCode r) [400; 500] /\
    (exists msg, response_body r = ErrorBody msg) /\
    tenant_table w' = tenant_table w /\ billing_table w' = billing_table w /\
    queue w' = queue w /\
    metric "OnboardingSuccess" w' = metric "OnboardingSuccess" w).
  { intros e. exec. eexists _, _. split; [reflexivity|]. cbn.
    rewrite after_metric_other by discriminate. autorewrite with world. eauto 10. }
  exec.
  destruct (httpMethod event) as [m|]; [|apply (Hfail (KeyError "httpMethod"))].
  exec. destruct (String.eqb m "POST"); exec;
    [|eexists _, _; split; [reflexivity|]; cbn; eauto 10].
  destruct (path event) as [p|]; [|apply (Hfail (KeyError "path"))].
  exec. destruct (String.eqb p "/onboarding");
    [|eexists _, _; split; [reflexivity|]; cbn; eauto 10].
  destruct (body event) as [b|]; [|apply (Hfail (KeyError "body"))]. exec.
  destruct (body_tenant_name b) as [tenant_name|];
    [|apply (Hfail (KeyError "tenant_name"))]. exec.
  destruct (body_email b) as [email|]; [|apply (Hfail (KeyError "email"))]. exec.
  destruct (body_password b) as [password|]; [|apply (Hfail (KeyError "password"))]. exec.
  destruct (register_tenant_leaves tenant_name email password env w)
    as (e & w1 & Hrun & Ht & Hb & Hq & Hm).
  rewrite Hrun. exec. eexists _, _. split; [reflexivity|]. cbn.
  rewrite after_metric_other by discriminate. autorewrite with world.
  rewrite Ht, Hb, Hq, Hm. eauto 10.
Qed.

(** ** Redelivery *)

(** X19. Processing is not idempotent: a record delivered in two invocations
    is counted twice, the counter of its tenant ends 2 [d] above its first
    value. *)
Theorem redelivered_record_counts_twice (T : string) (record : StreamRecord) (d : Z) env w :
  dynamodb_fault env = None -> sqs_fault env = None ->
  is_Some (billing_table w !! T) ->
  carries T record d ->
  exists w1 w2,
    BillingHandler.lambda_handler (stream_event [record]) env w
    = (Ok {| statusCode := 200; response_body := MessageBody "Usage processed" |}, w1) /\
    BillingHandler.lambda_handler (stream_event [record]) env w1
    = (Ok {| statusCode := 200; response_body := MessageBody "Usage processed" |}, w2) /\
    (usage_of w2 T == usage_of w T + inject_Z (2 * d))%Q.
Proof.
  intros Hf Hs Hc Hrd.
  assert (HF : Forall2 (carries T) [record] [d]) by (constructor; [assumption | constructor]).
  destruct (for_each_carries T env Hf Hs [record] [d] HF w Hc)
    as (w1 & Hrun1 & Hu1 & Hc1 & _).
  destruct (for_each_carries T env Hf Hs [record] [d] HF w1 Hc1)
    as (w2 & Hrun2 & Hu2 & _).
  exists w1, w2.
  unfold BillingHandler.lambda_handler, stream_event. exec.
  rewrite Hrun1, Hrun2. repeat split.
  rewrite Hu2, Hu1. rewrite !sum_cons. cbn [sum fold_right]. rewrite Z.add_0_r.
  replace (2 * d) with (d + d) by lia. rewrite inject_Z_plus. ring.
Qed.

Lemma redelivered_record_counts_twice_witness :
  exists w1 w2,
    BillingHandler.lambda_handler
      (stream_event [change_record "INSERT" "t1" (Some "7")]) healthy sample_world
    = (Ok {| statusCode := 200; response_body := MessageBody "Usage processed" |}, w1) /\
    BillingHandler.lambda_handler
      (stream_event [change_record "INSERT" "t1" (Some "7")]) healthy w1
    = (Ok {| statusCode := 200; response_body := MessageBody "Usage processed" |}, w2) /\
    (usage_of w2 "t1" == usage_of sample_world "t1" + inject_Z (2 * 7))%Q.
Proof.
  apply (redelivered_record_counts_twice "t1"
           (change_record "INSERT" "t1" (Some "7")) 7 healthy sample_world);
    [reflexivity | reflexivity | eexists; reflexivity |].
  split; [left; reflexivity | eexists; repeat split; reflexivity].
Defined.

(** ** Accumulation on a counter *)

(** X20. Once tenant [T] has a counter, usage accumulates: with DynamoDB and
    SQS working, a batch of Insert and Modify records of [T] that carry the
    integer deltas [ds], delivered in any order, is processed to the end
    (status 200) and leaves the counter of [T] at its first value plus the
    sum of [ds], the counters of the other tenants as they were. *)
Theorem usage_accumulates_on_a_counter (T : string) (records : list StreamRecord)
    (ds : list Z) env w :
  dynamodb_fault env = None -> sqs_fault env = None ->
  is_Some (billing_table w !! T) ->
  Forall2 (carries T) records ds ->
  forall delivered, Permutation records delivered ->
  exists w',
    BillingHandler.lambda_handler (stream_event delivered) env w
    = (Ok {| statusCode := 200; response_body := MessageBody "Usage processed" |}, w') /\
    (usage_of w' T == usage_of w T + inject_Z (sum ds))%Q /\
    (forall T', T' <> T -> billing_table w' !! T' = billing_table w !! T').
Proof.
  intros Hf Hs Hc HF delivered Hperm.
  destruct (Permutation_Forall2 Hperm HF) as (ds' & Hp' & HF').
  destruct (for_each_carries T env Hf Hs delivered ds' HF' w Hc)
    as (w' & Hrun & Hu & _ & Hother & _).
  exists w'. split; [|split].
  - unfold BillingHandler.lambda_handler, stream_event. cbn [Records]. exec.
    now rewrite Hrun.
  - now rewrite Hu, (sum_Permutation _ _ Hp').
  - exact Hother.
Qed.

Lemma usage_accumulates_on_a_counter_witness :
  exists w',
    BillingHandler.lambda_handler
      (stream_event [change_record "MODIFY" "t1" (Some "5");
                     change_record "INSERT" "t1" (Some "10")])
      healthy sample_world
    = (Ok {| statusCode := 200; response_body := MessageBody "Usage processed" |}, w') /\
    (usage_of w' "t1" == usage_of sample_world "t1" + inject_Z (sum [10%Z; 5%Z]))%Q /\
    (forall T', T' <> "t1" -> billing_table w' !! T' = billing_table sample_world !! T').
Proof.
  apply (usage_accumulates_on_a_counter "t1"
           [change_record "INSERT" "t1" (Some "10"); change_record "MODIFY" "t1" (Some "5")]
           [10; 5] healthy sample_world); try reflexivity.
  - eexists; reflexivity.
  - repeat constructor; eexists; repeat split; reflexivity.
  - apply perm_swap.
Defined.
